(** * bots_DB_management.py: the data-access operations over the sqlite store

    The module is a Streamlit console over three tables, [Bots],
    [KnowledgeBase] and the join table [BotKnowledgeLink].  Every operation
    opens its own [sqlite3] connection, runs a few statements and commits.

    The embedding keeps the structure of the Python code:
    - the store is the committed content of the database file ([disk]) plus
      the pending transaction of the connection in use ([conn]);
    - every statement sent to sqlite may fail; which ones do is fixed by a
      fault plan carried in the world ([faults]), so that a theorem quantified
      over all worlds covers every failure at every statement;
    - Python exceptions, [try]/[except]/[finally] and [with conn:] are
      combinators of a state-and-exception monad;
    - the schema is not in the repository: what its constraints (keys,
      uniqueness, foreign keys once enforced) reject appears as a fault of
      the plan, and a run with an empty plan is one where sqlite accepts
      every statement;
    - [st.cache_data] is a map from the argument of [load_data] to the
      dataframe it returned (reads inside the 60 s time-to-live);
    - [st.success], [print] and [st.error] called with the text alone append
      to what the page shows; [st.error] takes one positional argument, a
      call with two raises [TypeError]. *)

From stdpp Require Import base option list gmap strings fin_maps pretty.
From Stdlib Require Import ZArith Lia.

Open Scope Z_scope.
Open Scope string_scope.
Open Scope list_scope.

(** ** Values *)

(** What Python hands to the functions: [None], a float NaN, [pd.NA],
    an [int] or a [str]. *)
Inductive pyval :=
| PyNone
| PyNaN
| PyNA
| PyInt (n : Z)
| PyStr (s : string).

(** What sqlite stores in a column. *)
Inductive value :=
| VNull
| VInt (n : Z)
| VText (s : string).

#[global] Instance pyval_eq_dec : EqDecision pyval.
Proof. solve_decision. Defined.

#[global] Instance value_eq_dec : EqDecision value.
Proof. solve_decision. Defined.

(** [pd.notna] on a scalar. *)
Definition pd_notna (v : pyval) : bool :=
  match v with
  | PyNone | PyNaN | PyNA => false
  | PyInt _ | PyStr _ => true
  end.

(** Python's [v != "None"]: only the string ["None"] is equal to it. *)
Definition py_ne_None_str (v : pyval) : bool :=
  match v with
  | PyStr s => negb (String.eqb s "None")
  | _ => true
  end.

(** Python's [v != '']. *)
Definition py_ne_empty_str (v : pyval) : bool :=
  match v with
  | PyStr s => negb (String.eqb s EmptyString)
  | _ => true
  end.

(** Binding a Python value to a [?] placeholder: [None] and NaN are bound
    as NULL, [pd.NA] is not a supported type. *)
Definition bind_param (v : pyval) : option value :=
  match v with
  | PyNone | PyNaN => Some VNull
  | PyNA => None
  | PyInt n => Some (VInt n)
  | PyStr s => Some (VText s)
  end.

(** ** Rows, tables, database *)

Abbreviation row := (gmap string value).
Abbreviation table := (list row).

(** A column that a row does not carry reads as NULL. *)
Definition column (r : row) (c : string) : value := default VNull (r !! c).

Record db := mkDb {
  Bots : table;
  KnowledgeBase : table;
  BotKnowledgeLink : table;
  other_tables : gmap string table
}.

#[global] Instance db_eq_dec : EqDecision db.
Proof. solve_decision. Defined.

(** The table of a name.  The names are those of the schema as the page
    spells them (lines 233 and 246-251); a name is looked up as it is
    spelled, like the tests [table_name == "Bots"] of the Python code.
    sqlite itself resolves a name without regard to case: what depends on
    another spelling of a name is outside the model, and [keeps_parents]
    below admits only the spellings of the page. *)
Definition table_of (name : string) (d : db) : option table :=
  if String.eqb name "Bots" then Some (Bots d)
  else if String.eqb name "KnowledgeBase" then Some (KnowledgeBase d)
  else if String.eqb name "BotKnowledgeLink" then Some (BotKnowledgeLink d)
  else other_tables d !! name.

Definition with_table (name : string) (t : table) (d : db) : db :=
  if String.eqb name "Bots" then mkDb t (KnowledgeBase d) (BotKnowledgeLink d) (other_tables d)
  else if String.eqb name "KnowledgeBase" then mkDb (Bots d) t (BotKnowledgeLink d) (other_tables d)
  else if String.eqb name "BotKnowledgeLink" then mkDb (Bots d) (KnowledgeBase d) t (other_tables d)
  else mkDb (Bots d) (KnowledgeBase d) (BotKnowledgeLink d) (<[name := t]> (other_tables d)).

(** The row of [BotKnowledgeLink] written by
    [INSERT INTO BotKnowledgeLink (Bot_ID, KnowledgeBase_ID) VALUES (?, ?)]. *)
Definition link_row (b k : value) : row :=
  <["Bot_ID" := b]> (<["KnowledgeBase_ID" := k]> ∅).

(** ** Exceptions *)

Inductive exn :=
| IntegrityError
| OperationalError
| ProgrammingError
| DatabaseError
| InterfaceError
| TypeError
| ValueError.

#[global] Instance exn_eq_dec : EqDecision exn.
Proof. solve_decision. Defined.

(** [isinstance(e, sqlite3.IntegrityError)] and its superclasses. *)
Definition is_IntegrityError (e : exn) : bool :=
  match e with IntegrityError => true | _ => false end.

Definition is_DatabaseError (e : exn) : bool :=
  match e with
  | IntegrityError | OperationalError | ProgrammingError | DatabaseError => true
  | _ => false
  end.

Definition is_sqlite3_Error (e : exn) : bool :=
  match e with
  | InterfaceError => true
  | _ => is_DatabaseError e
  end.

(** ** The world and the monad *)

(** What the page shows through [st.error] and [print]. *)
Inductive notice :=
| StError (msg : string) (e : exn)
| StSuccess (msg : string)
| Printed (msg : string).

#[global] Instance notice_eq_dec : EqDecision notice.
Proof. solve_decision. Defined.

Record world := mkWorld {
  disk : db;                       (* committed content of the file *)
  conn : option (option db);       (* None: no open connection;
                                      Some None: open, no transaction;
                                      Some (Some d): open, pending state d *)
  leaked : nat;                    (* connections dropped while still open *)
  cache : gmap string table;       (* st.cache_data of load_data *)
  faults : list (option exn);      (* outcome of the next statements *)
  shown : list notice
}.

Definition set_disk (d : db) (w : world) : world :=
  mkWorld d (conn w) (leaked w) (cache w) (faults w) (shown w).
Definition set_conn (c : option (option db)) (w : world) : world :=
  mkWorld (disk w) c (leaked w) (cache w) (faults w) (shown w).
Definition set_leaked (n : nat) (w : world) : world :=
  mkWorld (disk w) (conn w) n (cache w) (faults w) (shown w).
Definition set_cache (c : gmap string table) (w : world) : world :=
  mkWorld (disk w) (conn w) (leaked w) c (faults w) (shown w).
Definition set_faults (f : list (option exn)) (w : world) : world :=
  mkWorld (disk w) (conn w) (leaked w) (cache w) f (shown w).
Definition set_shown (s : list notice) (w : world) : world :=
  mkWorld (disk w) (conn w) (leaked w) (cache w) (faults w) s.

Inductive outcome (A : Type) :=
| Ret (a : A)
| Raise (e : exn).
Arguments Ret {A} a.
Arguments Raise {A} e.

#[global] Instance outcome_eq_dec {A} `{EqDecision A} : EqDecision (outcome A).
Proof. solve_decision. Defined.

Definition M (A : Type) : Type := world → outcome A * world.

#[global] Instance M_ret : MRet M := λ A a w, (Ret a, w).

#[global] Instance M_bind : MBind M := λ A B f m w,
  match m w with
  | (Ret a, w') => f a w'
  | (Raise e, w') => (Raise e, w')
  end.

Definition raise {A} (e : exn) : M A := λ w, (Raise e, w).

(** [try: body except ...: handler]; a handler re-raises what no clause
    catches. *)
Definition try_except {A} (body : M A) (handler : exn → M A) : M A := λ w,
  match body w with
  | (Ret a, w') => (Ret a, w')
  | (Raise e, w') => handler e w'
  end.

(** [try: body finally: fin]. *)
Definition try_finally {A} (body : M A) (fin : M unit) : M A := λ w,
  match body w with
  | (r, w') =>
      match fin w' with
      | (Ret _, w'') => (r, w'')
      | (Raise e, w'') => (Raise e, w'')
      end
  end.

(** [for x in xs: body x]. *)
Fixpoint for_each {A} (xs : list A) (body : A → M unit) : M unit :=
  match xs with
  | [] => mret ()
  | x :: xs' => body x ;; for_each xs' body
  end.

Definition run {A} (m : M A) (w : world) : world := snd (m w).
Definition result {A} (m : M A) (w : world) : outcome A := fst (m w).

(** ** Primitive effects *)

Definition get_world : M world := λ w, (Ret w, w).

(** [st.error(f"msg {e}")], [st.success(msg)], [print(msg)]: the text is
    shown. *)
Definition st_error (msg : string) (e : exn) : M unit := λ w,
  (Ret (), set_shown (shown w ++ [StError msg e]) w).

(** [st.error(msg, e)]: [st.error] takes the text as its only positional
    argument (the icon is given by keyword), so that a call with two is
    rejected with a [TypeError] and shows nothing. *)
Definition st_error2 (msg : string) (e : exn) : M unit := raise TypeError.

Definition st_success (msg : string) : M unit := λ w,
  (Ret (), set_shown (shown w ++ [StSuccess msg]) w).

Definition print (msg : string) : M unit := λ w,
  (Ret (), set_shown (shown w ++ [Printed msg]) w).

(** [st.cache_data.clear()]. *)
Definition cache_clear : M unit := λ w, (Ret (), set_cache ∅ w).

(** [sqlite3.connect(db_path)]: a fresh connection outside any transaction.
    A connection that is still open when its variable is rebound is lost. *)
Definition connect : M unit := λ w,
  (Ret (), set_conn (Some None)
             (set_leaked (match conn w with Some _ => S (leaked w) | None => leaked w end) w)).

(** [conn.close()]: a pending transaction is dropped without being committed. *)
Definition close : M unit := λ w, (Ret (), set_conn None w).

(** The store answers the next statement as the fault plan says. *)
Definition fault_point : M unit := λ w,
  match faults w with
  | Some e :: fs => (Raise e, set_faults fs w)
  | None :: fs => (Ret (), set_faults fs w)
  | [] => (Ret (), w)
  end.

(** The state a statement of the open connection sees and changes: its
    pending transaction, else the content of the file. *)
Definition on_conn {A} (f : db → world → outcome A * world) : M A := λ w,
  match conn w with
  | None => (Raise ProgrammingError, w)
  | Some pending => f (default (disk w) pending) w
  end.

(** A statement that reads. *)
Definition sql_read {A} (q : db → option A) : M A :=
  fault_point ;;
  on_conn (λ d w, match q d with
                  | Some a => (Ret a, w)
                  | None => (Raise OperationalError, w)
                  end).

(** A statement that writes: outside a transaction the [sqlite3] module
    begins one first; a statement that fails changes nothing. *)
Definition sql_write (u : db → option db) : M unit :=
  fault_point ;;
  on_conn (λ d w, match u d with
                  | Some d' => (Ret (), set_conn (Some (Some d')) w)
                  | None => (Raise OperationalError, w)
                  end).

(** [cursor.execute("BEGIN")]. *)
Definition execute_begin : M unit :=
  fault_point ;;
  on_conn (λ d w, match conn w with
                  | Some None => (Ret (), set_conn (Some (Some d)) w)
                  | _ => (Raise OperationalError, w)
                  end).

(** [conn.execute("PRAGMA foreign_keys = ON")]: what enforcement then
    rejects is part of the fault plan. *)
Definition execute_pragma : M unit :=
  fault_point ;;
  on_conn (λ _ w, (Ret (), w)).

(** [conn.commit()]: the pending state becomes the content of the file. *)
Definition commit : M unit :=
  w ← get_world;
  match conn w with
  | None => raise ProgrammingError
  | Some None => mret ()
  | Some (Some d) =>
      fault_point ;;
      ((λ w', (Ret (), set_conn (Some None) (set_disk d w'))) : M unit)
  end.

(** [conn.rollback()]. *)
Definition rollback : M unit :=
  on_conn (λ _ w, (Ret (), set_conn (Some None) w)).

(** [with conn: body]: commit when the body returns, roll back and re-raise
    when it raises. *)
Definition with_conn {A} (body : M A) : M A := λ w,
  match body w with
  | (Ret a, w') => (try_except commit (λ e, rollback ;; raise e) ;; mret a) w'
  | (Raise e, w') => (rollback ;; raise e) w'
  end.

(** ** Statements

    The [CREATE TABLE] statements are not part of the repository, so the
    declared type of a column is unknown.  Values are stored as they are
    bound; how [=] compares a stored value with a bound one of another
    storage class depends on the declared type and is left as the parameter
    [coerced_eq] (table, column, stored value, bound value). *)

Section Store.

Variable coerced_eq : string → string → value → value → bool.

(** [column = ?] in a WHERE clause: NULL is equal to nothing. *)
Definition sql_eq (tbl col : string) (stored bound : value) : bool :=
  match stored, bound with
  | VNull, _ | _, VNull => false
  | VInt a, VInt b => Z.eqb a b
  | VText a, VText b => String.eqb a b
  | _, _ => coerced_eq tbl col stored bound
  end.

Definition matches (tbl col : string) (v : value) (r : row) : bool :=
  sql_eq tbl col (column r col) v.

(** [DELETE FROM tbl WHERE col = ?]. *)
Definition delete_where (tbl col : string) (v : value) (d : db) : option db :=
  t ← table_of tbl d;
  Some (with_table tbl (List.filter (λ r, negb (matches tbl col v r)) t) d).

(** [UPDATE tbl SET c1 = ?, ... WHERE col = ?]; an empty SET list is a
    syntax error. *)
Definition update_where (tbl : string) (sets : row) (col : string) (v : value)
    (d : db) : option db :=
  t ← table_of tbl d;
  if decide (sets = ∅) then None
  else Some (with_table tbl (map (λ r, if matches tbl col v r then sets ∪ r else r) t) d).

(** [INSERT INTO tbl (c1, ...) VALUES (?, ...)]. *)
Definition insert_into (tbl : string) (r : row) (d : db) : option db :=
  t ← table_of tbl d;
  Some (with_table tbl (t ++ [r]) d).

(** [SELECT * FROM tbl]. *)
Definition select_all (tbl : string) (d : db) : option table := table_of tbl d.

(** [SELECT * FROM BotKnowledgeLink WHERE Bot_ID=? AND KnowledgeBase_ID=?]. *)
Definition select_link (b k : value) (d : db) : option table :=
  Some (List.filter (λ r, matches "BotKnowledgeLink" "Bot_ID" b r
                          && matches "BotKnowledgeLink" "KnowledgeBase_ID" k r)
                    (BotKnowledgeLink d)).

(** [SELECT KnowledgeBase_ID FROM BotKnowledgeLink WHERE Bot_ID = ?]. *)
Definition select_linked (b : value) (d : db) : option (list value) :=
  Some (map (λ r, column r "KnowledgeBase_ID")
            (List.filter (matches "BotKnowledgeLink" "Bot_ID" b) (BotKnowledgeLink d))).

(** Binding the parameters of a statement. *)
Definition bound (v : pyval) : M value :=
  match bind_param v with
  | Some x => mret x
  | None => raise InterfaceError
  end.

Definition bind_all (data : gmap string pyval) : option row :=
  if decide (map_Forall (λ _ v, is_Some (bind_param v)) data)
  then Some (omap bind_param data)
  else None.

Definition bound_all (data : gmap string pyval) : M row :=
  match bind_all data with
  | Some r => mret r
  | None => raise InterfaceError
  end.

Definition execute_delete (tbl col : string) (v : pyval) : M unit :=
  x ← bound v; sql_write (delete_where tbl col x).

Definition execute_update (tbl : string) (sets : gmap string pyval)
    (col : string) (v : pyval) : M unit :=
  r ← bound_all sets; x ← bound v; sql_write (update_where tbl r col x).

Definition execute_insert_link (b k : pyval) : M unit :=
  x ← bound b; y ← bound k; sql_write (insert_into "BotKnowledgeLink" (link_row x y)).

Definition execute_select_link (b k : pyval) : M table :=
  x ← bound b; y ← bound k; sql_read (select_link x y).

(** [pd.read_sql_query(query, conn)]. *)
Definition read_sql_query {A} (q : db → option A) : M A := sql_read q.

(** pandas writes a missing cell as NULL. *)
Definition df_cell (v : pyval) : value :=
  match v with
  | PyInt n => VInt n
  | PyStr s => VText s
  | _ => VNull
  end.

Definition append_rows (tbl : string) (rows : table) (d : db) : option db :=
  Some (with_table tbl (default [] (table_of tbl d) ++ rows) d).

(** [data.to_sql(table_name, conn, if_exists='append', index=False)]: pandas
    creates the table when it is missing, appends the rows in one
    transaction and commits it; on an error it rolls back and re-raises. *)
Definition to_sql (data : list (gmap string pyval)) (table_name : string) : M unit :=
  try_except
    (sql_write (append_rows table_name (map (fmap df_cell) data)) ;; commit)
    (λ e, rollback ;; raise e).

(** ** The functions of the module *)

(** [load_data], under [@st.cache_data(ttl=60)]: a call with an argument
    already seen returns the stored dataframe without running the body. *)
Definition load_data (table_name : string) : M table :=
  w ← get_world;
  match cache w !! table_name with
  | Some df => mret df
  | None =>
      connect ;;
      df ← read_sql_query (select_all table_name);
      close ;;
      (λ w', (Ret df, set_cache (<[table_name := df]> (cache w')) w')) : M table
  end.

Definition add_record (data : list (gmap string pyval)) (table_name : string) : M unit :=
  try_finally
    (try_except
       (connect ;;
        to_sql data table_name ;;
        close)
       (λ e, if is_IntegrityError e then st_error2 "Integrity error:" e
             else if is_DatabaseError e then st_error2 "Database error:" e
             else st_error2 "An unexpected error occurred:" e))
    (close ;;
     cache_clear).

Definition delete_record (identifier : pyval) (table_name identifier_column : string)
    : M unit :=
  try_finally
    (try_except
       (connect ;;
        execute_pragma ;;
        execute_begin ;;
        (if String.eqb table_name "Bots"
         then execute_delete "BotKnowledgeLink" "Bot_ID" identifier
         else if String.eqb table_name "KnowledgeBase"
         then execute_delete "BotKnowledgeLink" "KnowledgeBase_ID" identifier
         else mret ()) ;;
        execute_delete table_name identifier_column identifier ;;
        commit)
       (λ e, if is_IntegrityError e
             then rollback ;; st_error2 "Integrity error:" e
             else if is_DatabaseError e
             then rollback ;; st_error2 "Database error:" e
             else rollback ;; st_error2 "An unexpected error occurred:" e))
    close.

(** [{k: v if pd.notna(v) and v != "None" else None for k, v in data.items()}]. *)
Definition processed (v : pyval) : pyval :=
  if pd_notna v && py_ne_None_str v then v else PyNone.

Definition update_record (record_id : pyval) (data : gmap string pyval)
    (table_name column_name : string) : M unit :=
  try_finally
    (try_except
       (connect ;;
        let processed_data := processed <$> data in
        execute_update table_name processed_data column_name record_id ;;
        commit)
       (λ e, if is_DatabaseError e then st_error2 "Database error:" e
             else st_error2 "An unexpected error occurred:" e))
    (close ;;
     cache_clear).

(** [SELECT ID, Content FROM KnowledgeBase]. *)
Definition select_id_content (d : db) : option table :=
  Some (map (filter (λ kv : string * value, kv.1 = "ID" ∨ kv.1 = "Content"))
            (KnowledgeBase d)).

Definition get_knowledgebase_entries : M table :=
  connect ;;
  df ← read_sql_query select_id_content;
  close ;;
  mret df.

Definition int_keys (c : string) (t : table) : list Z :=
  omap (λ r, match column r c with VInt n => Some n | _ => None end) t.

(** Modelled from the spec: the declaration of the table [Bots] is not in
    the repository.  A Bot is "identified by a numeric key": [Bot_ID] is
    taken as the integer primary key, so a row inserted without it gets one
    more than the largest key of the table. *)
Definition next_rowid (t : table) : Z := 1 + foldr Z.max 0 (int_keys "Bot_ID" t).

(** [INSERT INTO Bots (c1, ...) VALUES (?, ...)]. *)
Definition insert_bot (r : row) (d : db) : option db :=
  if decide (r = ∅) then None
  else
    let id := match r !! "Bot_ID" with
              | Some (VInt n) => n
              | _ => next_rowid (Bots d)
              end in
    Some (with_table "Bots" (Bots d ++ [<["Bot_ID" := VInt id]> r]) d).

(** [cursor.lastrowid] after the insertion: the key of the row just added. *)
Definition lastrowid : M Z := λ w,
  match conn w with
  | Some (Some d) =>
      match last (Bots d) with
      | Some r => match column r "Bot_ID" with
                  | VInt n => (Ret n, w)
                  | _ => (Ret 0, w)
                  end
      | None => (Ret 0, w)
      end
  | _ => (Ret 0, w)
  end.

Definition add_bot_and_get_id (data : gmap string pyval) : M (option Z) :=
  connect ;;
  try_finally
    (try_except
       (r ← bound_all data;
        sql_write (insert_bot r) ;;
        bot_id ← lastrowid;
        commit ;;
        mret (Some bot_id))
       (λ e, if is_sqlite3_Error e
             then st_error "An error occurred:" e ;; mret None
             else raise e))
    (close ;;
     cache_clear).

Definition link_bot_to_knowledgebase (bot_id : pyval) (kb_ids : list pyval) : M unit :=
  connect ;;
  try_finally
    (try_except
       (with_conn
          (for_each kb_ids (λ kb_id,
             rows ← execute_select_link bot_id kb_id;
             match rows with
             | [] => execute_insert_link bot_id kb_id
             | _ :: _ => mret ()
             end)))
       (λ e, if is_sqlite3_Error e
             then st_error "An error occurred:" e
             else raise e))
    close.

Definition get_linked_knowledgebase_entries (bot_id : pyval) : M (list value) :=
  connect ;;
  try_finally
    (try_except
       (print "Executing query" ;;
        x ← bound bot_id;
        rows ← sql_read (select_linked x);
        (match rows with
         | [] => print "No KnowledgeBase entries linked"
         | _ :: _ => mret ()
         end) ;;
        mret rows)
       (λ e, if is_sqlite3_Error e
             then print "An error occurred during query execution" ;; mret []
             else raise e))
    close.

(** The arguments are the integers read from the dataframe, on which
    [int(...)] is the identity. *)
Definition update_bot_knowledge_links (bot_id : Z) (kb_ids_selected : list Z) : M unit :=
  connect ;;
  execute_delete "BotKnowledgeLink" "Bot_ID" (PyInt bot_id) ;;
  for_each kb_ids_selected (λ kb_id,
    execute_insert_link (PyInt bot_id) (PyInt kb_id)) ;;
  commit ;;
  close.

(** ** The page handlers that call them *)

(** Line 246: the column by which the page identifies a record. *)
Definition identifier_column_of (table_name : string) : string :=
  if String.eqb table_name "Bots" then "Botperson_Name" else "ID".

(** The "Delete Record" button (lines 318-324); the identifier is the entry
    selected among [df[identifier_column].astype(str)], the first entry of
    the box being the prompt ["Select " + identifier_column]. *)
Definition delete_column_of (table_name : string) : string :=
  if String.eqb table_name "BotKnowledgeLink" then "Bot_ID"
  else identifier_column_of table_name.

Definition delete_record_form (record_identifier table_name : string) : M unit :=
  let identifier_column := delete_column_of table_name in
  if String.eqb record_identifier (String.append "Select " identifier_column)
  then mret ()
  else
    delete_record (PyStr record_identifier) table_name identifier_column ;;
    st_success "Record deleted successfully!".

(** Line 356: [{k: v if v != '' else None for k, v in updated_data.items()}]
    over the texts typed in the form. *)
Definition form_data (fields : gmap string string) : gmap string pyval :=
  (λ v, if py_ne_empty_str (PyStr v) then PyStr v else PyNone) <$> fields.

(** The body of [if submitted:] of the "Update Record" form (lines
    355-360), in the state the script has when it gets there: [bot_id] is
    what line 333 read from the selected record ([None] when the table has
    no [Bot_ID]) and [kb_ids_selected] the keys of the entries picked in
    the box of line 349.  The widgets that come before (lines 336-352) are
    not part of it. *)
Definition update_record_form (record_identifier : string) (fields : gmap string string)
    (table_name : string) (bot_id : option Z) (kb_ids_selected : list Z) : M unit :=
  let updated_data := form_data fields in
  update_record (PyStr record_identifier) updated_data table_name
                (identifier_column_of table_name) ;;
  (match bot_id with
   | Some b => if Z.eqb b 0 then mret () else update_bot_knowledge_links b kb_ids_selected
   | None => mret ()
   end) ;;
  st_success "Record updated successfully!".

(** Lines 304-309: the "Add Record" form on [Bots], once the required
    fields are filled.  The texts of the form are inserted as typed;
    [kb_ids_selected] are the keys of the entries picked in the box. *)
Definition add_bot_submit (new_data : gmap string string) (kb_ids_selected : list Z)
    : M unit :=
  bot_id ← add_bot_and_get_id (PyStr <$> new_data);
  st_success "Bot added successfully!" ;;
  match kb_ids_selected with
  | [] => mret ()
  | _ :: _ =>
      let kb_ids := PyInt <$> kb_ids_selected in
      link_bot_to_knowledgebase
        (match bot_id with Some n => PyInt n | None => PyNone end) kb_ids ;;
      st_success "Bot linked to KnowledgeBase successfully!"
  end.

(** Lines 247-251: the column of each table that the view always shows. *)
Definition required_columns (table_name : string) : option string :=
  if String.eqb table_name "KnowledgeBase" then Some "ID"
  else if String.eqb table_name "Bots" then Some "Bot_ID"
  else if String.eqb table_name "BotKnowledgeLink" then Some "Bot_ID"
  else None.

(** Line 260: [[required_column] + [col for col in columns if col != required_column]]. *)
Definition default_columns (required_column : string) (columns : list string)
    : list string :=
  required_column
  :: List.filter (λ col, negb (String.eqb col required_column)) columns.

(** Lines 264-267: the selection of the box, with the required column put
    back in front when it was removed; the flag tells that the warning is
    shown. *)
Definition columns_to_show (required_column : string) (selected : list string)
    : list string * bool :=
  if bool_decide (required_column ∈ selected) then (selected, false)
  else (required_column :: selected, true).

(** ** What the operations commit

    The content of the file after an operation whose statements all
    succeed, as a function of the content before. *)

(** [delete_record]: the dependent links, then the row. *)
Definition deleted (tbl col : string) (x : value) (d : db) : option db :=
  d1 ← (if String.eqb tbl "Bots"
        then delete_where "BotKnowledgeLink" "Bot_ID" x d
        else if String.eqb tbl "KnowledgeBase"
        then delete_where "BotKnowledgeLink" "KnowledgeBase_ID" x d
        else Some d);
  delete_where tbl col x d1.

(** [update_bot_knowledge_links]: the links of the bot are replaced. *)
Definition replaced (b : Z) (ks : list Z) (d : db) : db :=
  with_table "BotKnowledgeLink"
    (List.filter (λ r, negb (matches "BotKnowledgeLink" "Bot_ID" (VInt b) r))
                 (BotKnowledgeLink d)
     ++ map (λ k, link_row (VInt b) (VInt k)) ks) d.

(** [link_bot_to_knowledgebase]: one link is added unless the pair is there. *)
Definition link_one (b : value) (d : db) (k : value) : db :=
  match select_link b k d with
  | Some [] => with_table "BotKnowledgeLink" (BotKnowledgeLink d ++ [link_row b k]) d
  | _ => d
  end.

Definition linked (b : value) (ks : list value) (d : db) : db :=
  foldl (link_one b) d ks.

(** The rows of a table that [WHERE col = x] does not select. *)
Definition unselected (tbl col : string) (x : value) (t : table) : table :=
  List.filter (λ r, negb (matches tbl col x r)) t.

(** The links of a bot, and the rows linking a given pair. *)
Definition links_of (b : Z) (d : db) : table :=
  List.filter (matches "BotKnowledgeLink" "Bot_ID" (VInt b)) (BotKnowledgeLink d).

Definition links_between (b k : Z) (d : db) : table :=
  List.filter (λ r, matches "BotKnowledgeLink" "Bot_ID" (VInt b) r
                    && matches "BotKnowledgeLink" "KnowledgeBase_ID" (VInt k) r)
              (BotKnowledgeLink d).

(** No pair of keys is linked by more than one row. *)
Definition unique_links (d : db) : Prop :=
  ∀ b k, (length (links_between b k d) ≤ 1)%nat.

(** The rows of a table after an [UPDATE] that succeeds. *)
Definition updated_rows (tbl : string) (sets : row) (col : string) (x : value)
    (t : table) : table :=
  map (λ r, if matches tbl col x r then sets ∪ r else r) t.

(** What [update_record] binds for a supplied value. *)
Definition stored (v : pyval) : value :=
  match processed v with
  | PyInt n => VInt n
  | PyStr s => VText s
  | _ => VNull
  end.

(** ** Sequences of operations *)

Inductive op :=
| LoadData (table_name : string)
| AddRecord (data : list (gmap string pyval)) (table_name : string)
| DeleteRecord (identifier : pyval) (table_name identifier_column : string)
| UpdateRecord (record_id : pyval) (data : gmap string pyval) (table_name column_name : string)
| GetKnowledgebase
| AddBot (data : gmap string pyval)
| LinkBot (bot_id : pyval) (kb_ids : list pyval)
| GetLinked (bot_id : pyval)
| UpdateLinks (bot_id : Z) (kb_ids_selected : list Z).

Definition perform (o : op) : M unit :=
  match o with
  | LoadData t => load_data t ;; mret ()
  | AddRecord data t => add_record data t
  | DeleteRecord v t c => delete_record v t c
  | UpdateRecord v data t c => update_record v data t c
  | GetKnowledgebase => get_knowledgebase_entries ;; mret ()
  | AddBot data => add_bot_and_get_id data ;; mret ()
  | LinkBot b ks => link_bot_to_knowledgebase b ks
  | GetLinked b => get_linked_knowledgebase_entries b ;; mret ()
  | UpdateLinks b ks => update_bot_knowledge_links b ks
  end.

(** An operation that raises ends the run of the script; the next one
    starts from the world it left. *)
Definition perform_all (ops : list op) (w : world) : world :=
  foldl (λ w o, run (perform o) w) w ops.

End Store.

(** ** Referential integrity *)

Definition bot_keys (d : db) : list Z := int_keys "Bot_ID" (Bots d).
Definition kb_keys (d : db) : list Z := int_keys "ID" (KnowledgeBase d).

(** A link row references an existing Bot and an existing KnowledgeBase
    entry by their numeric keys. *)
Definition link_ok (d : db) (l : row) : bool :=
  match column l "Bot_ID", column l "KnowledgeBase_ID" with
  | VInt b, VInt k => bool_decide (b ∈ bot_keys d) && bool_decide (k ∈ kb_keys d)
  | _, _ => false
  end.

Definition no_dangling (d : db) : bool := forallb (link_ok d) (BotKnowledgeLink d).

(** *** The operations under which the links keep their parents *)

(** A link is created between keys that exist. *)
Definition is_existing (keys : list Z) (v : pyval) : bool :=
  match v with
  | PyInt n => bool_decide (n ∈ keys)
  | _ => false
  end.

(** Two spellings of one name: sqlite compares the names of tables and
    columns without regard to the case of the letters A-Z. *)
Definition lower_ascii (c : Ascii.ascii) : Ascii.ascii :=
  let n := Ascii.N_of_ascii c in
  if (65 <=? n)%N && (n <=? 90)%N then Ascii.ascii_of_N (n + 32) else c.

Fixpoint lower (s : string) : string :=
  match s with
  | EmptyString => EmptyString
  | String c s' => String (lower_ascii c) (lower s')
  end.

Definition same_name (a b : string) : bool := String.eqb (lower a) (lower b).

(** The names under which sqlite gives the integer key of a row. *)
Definition is_rowid (c : string) : bool :=
  same_name c "rowid" || same_name c "oid" || same_name c "_rowid_".

(** No supplied column is the key column [key], under any spelling. *)
Definition leaves_key (key : string) (data : gmap string pyval) : bool :=
  bool_decide (map_Forall (λ c _, same_name c key = false ∧ is_rowid c = false) data).

(** The column [c] is written as the rows write it: no row carries a column
    whose name is another spelling of [c], and [c] is not a name of the
    row id.  (A column that a row does not carry is NULL in that row.) *)
Definition spelled (c : string) (rows : table) : bool :=
  negb (is_rowid c) &&
  forallb (λ r : row,
             bool_decide (map_Forall (λ k _, same_name k c = true → k = c) r)) rows.

(** [delete_record] deletes from a parent table the rows that
    [WHERE col = x] selects, and from the join table the rows that
    [WHERE fk = x] selects ([fk] being [Bot_ID] or [KnowledgeBase_ID]).
    [links_selected] tells that the second statement covers the first:
    every link row that holds the integer key of a selected parent row is
    itself selected.  It is so when [x] is the integer key and [col] the
    key column; it is so for a row that has no link, whatever selects it;
    for a key given as text it depends on how the schema compares both
    columns with a text. *)
Definition links_selected (cmp : string → string → value → value → bool)
    (parent key fk col : string) (x : value) (rows : table) (d : db) : bool :=
  forallb (λ r,
    negb (matches cmp parent col x r) ||
    match column r key with
    | VInt n =>
        forallb (λ l, negb (bool_decide (column l fk = VInt n)) ||
                      matches cmp "BotKnowledgeLink" fk x l)
                (BotKnowledgeLink d)
    | _ => true
    end) rows.

(** The operations considered are those on the three tables under the
    names the page gives them, the columns being named as the rows name
    them.  Rows are added to the parent tables only; a deletion from a
    parent table selects the links of the rows it deletes; an update
    leaves the key column of a parent table and the join table alone; a
    link is created between keys that exist at that moment. *)
Definition keeps_parents (cmp : string → string → value → value → bool)
    (d : db) (o : op) : bool :=
  match o with
  | AddRecord _ t => String.eqb t "Bots" || String.eqb t "KnowledgeBase"
  | DeleteRecord v t c =>
      if String.eqb t "Bots"
      then match bind_param v with
           | Some x =>
               spelled c (Bots d) &&
               links_selected cmp "Bots" "Bot_ID" "Bot_ID" c x (Bots d) d
           | None => true
           end
      else if String.eqb t "KnowledgeBase"
      then match bind_param v with
           | Some x =>
               spelled c (KnowledgeBase d) &&
               links_selected cmp "KnowledgeBase" "ID" "KnowledgeBase_ID" c x
                              (KnowledgeBase d) d
           | None => true
           end
      else String.eqb t "BotKnowledgeLink"
  | UpdateRecord _ data t _ =>
      if String.eqb t "Bots" then leaves_key "Bot_ID" data
      else if String.eqb t "KnowledgeBase" then leaves_key "ID" data
      else false
  | LinkBot b ks => is_existing (bot_keys d) b && forallb (is_existing (kb_keys d)) ks
  | UpdateLinks b ks =>
      bool_decide (b ∈ bot_keys d) && forallb (λ k, bool_decide (k ∈ kb_keys d)) ks
  | _ => true
  end.


(** What the "Update Record" form stores for a text typed in a field. *)
Definition form_stored (s : string) : value :=
  if String.eqb s EmptyString || String.eqb s "None" then VNull else VText s.

(** The values for which [update_record] stores NULL according to its
    test [pd.notna(v) and v != "None"]. *)
Definition is_missing (v : pyval) : bool :=
  match v with
  | PyNone | PyNaN | PyNA => true
  | PyStr s => String.eqb s "None"
  | PyInt _ => false
  end.

(** ** Sample data *)

(** Comparison on storage classes only, as for columns declared without a
    type. *)
Definition no_coercion : string → string → value → value → bool := λ _ _ _ _, false.

(** Comparison for key columns declared [INTEGER], as far as the page needs
    it: an integer is equal to the text of its decimal writing, which is
    what [astype(str)] makes of a key (lines 321 and 329). *)
Definition integer_keys : string → string → value → value → bool :=
  λ _ _ stored bound,
    match stored, bound with
    | VInt n, VText s => String.eqb (pretty n) s
    | _, _ => false
    end.

Definition bot_row (id : Z) (name : string) : row :=
  <["Bot_ID" := VInt id]> (<["Botperson_Name" := VText name]> ∅).

Definition kb_row (id : Z) (content : string) : row :=
  <["ID" := VInt id]> (<["Content" := VText content]> ∅).

Definition aida_db : db :=
  mkDb [bot_row 1 "Aida"] [kb_row 5 "doc5"; kb_row 6 "doc6"]
       [link_row (VInt 1) (VInt 5)] ∅.


Definition typed_fields : gmap string string :=
  <["Role" := "None"]> (<["Usage" := EmptyString]> {["Sector" := "Health"]}).

Definition missing_data : gmap string pyval :=
  <["Role" := PyStr "None"]> (<["Usage" := PyNaN]> {["Sector" := PyNA]}).

Definition idle (d : db) (plan : list (option exn)) : world :=
  mkWorld d None 0 ∅ plan [].

(** ** Reasoning about programs *)

(** [wp m Q E w]: running [m] in [w] either returns [a] in a world
    satisfying [Q a] or raises [e] in a world satisfying [E e]. *)
Definition wp {A} (m : M A) (Q : A → world → Prop) (E : exn → world → Prop)
    (w : world) : Prop :=
  match m w with
  | (Ret a, w') => Q a w'
  | (Raise e, w') => E e w'
  end.

(** ** Rules *)

Section Rules.
Context {A : Type}.
Implicit Types (Q : A → world → Prop) (E : exn → world → Prop) (w : world).

Lemma wp_ret (a : A) Q E w : Q a w → wp (mret a) Q E w.
Proof. done. Qed.

Lemma wp_raise (e : exn) Q E w : E e w → wp (raise e) Q E w.
Proof. done. Qed.

Lemma wp_mono (m : M A) Q Q' E E' w :
  wp m Q E w → (∀ a w', Q a w' → Q' a w') → (∀ e w', E e w' → E' e w') →
  wp m Q' E' w.
Proof. unfold wp. destruct (m w) as [[a|e] w']; auto. Qed.

Lemma wp_bind {B} (m : M B) (f : B → M A) Q E w :
  wp m (λ b w', wp (f b) Q E w') E w → wp (m ≫= f) Q E w.
Proof. unfold wp, mbind, M_bind. destruct (m w) as [[b|e] w']; auto. Qed.

Lemma wp_try_except (body : M A) (h : exn → M A) Q E w :
  wp body Q (λ e w', wp (h e) Q E w') w → wp (try_except body h) Q E w.
Proof. unfold wp, try_except. destruct (body w) as [[b|e] w']; auto. Qed.

Lemma wp_try_finally (body : M A) (fin : M unit) Q E w :
  wp body (λ a w', wp fin (λ _, Q a) E w') (λ e w', wp fin (λ _, E e) E w') w →
  wp (try_finally body fin) Q E w.
Proof.
  unfold wp, try_finally.
  destruct (body w) as [[b|e] w']; destruct (fin w') as [[[]|e'] w'']; auto.
Qed.

Lemma wp_with_conn (body : M A) Q E w :
  wp body (λ a w', wp (try_except commit (λ e, rollback ;; raise e) ;; mret a) Q E w')
          (λ e w', wp (rollback ;; raise e) Q E w') w →
  wp (with_conn body) Q E w.
Proof. unfold wp, with_conn. destruct (body w) as [[b|e] w']; auto. Qed.

Lemma wp_on_conn (f : db → world → outcome A * world) Q E w p :
  conn w = Some p →
  match f (default (disk w) p) w with
  | (Ret a, w') => Q a w'
  | (Raise e, w') => E e w'
  end →
  wp (on_conn f) Q E w.
Proof. intros Hc. unfold wp, on_conn. by rewrite Hc. Qed.

End Rules.

(** The store may answer a statement either way; a run whose fault plan is
    exhausted has no failure left. *)
Lemma wp_fault_point (Q : unit → world → Prop) E w :
  (∀ fs, (faults w = [] → fs = []) → Q () (set_faults fs w)) →
  (∀ e fs, faults w ≠ [] → E e (set_faults fs w)) →
  wp fault_point Q E w.
Proof.
  intros HQ HE. unfold wp, fault_point.
  destruct w as [d c l ca fs sh]; simpl in *.
  destruct fs as [|[e|] fs].
  - apply (HQ []); done.
  - apply HE; done.
  - apply HQ; done.
Qed.

Lemma wp_bound (v : pyval) (Q : value → world → Prop) E w :
  (∀ x, bind_param v = Some x → Q x w) →
  (bind_param v = None → E InterfaceError w) →
  wp (bound v) Q E w.
Proof. intros HQ HE. unfold bound. destruct (bind_param v); [apply HQ | apply HE]; done. Qed.

Lemma wp_bound_all (data : gmap string pyval) (Q : row → world → Prop) E w :
  (∀ r, bind_all data = Some r → Q r w) →
  (bind_all data = None → E InterfaceError w) →
  wp (bound_all data) Q E w.
Proof. intros HQ HE. unfold bound_all. destruct (bind_all data); [apply HQ | apply HE]; done. Qed.

Lemma wp_lastrowid (Q : Z → world → Prop) E w :
  (∀ n, Q n w) → wp lastrowid Q E w.
Proof.
  intros HQ. unfold wp, lastrowid.
  destruct (conn w) as [[d|]|]; [|done..].
  destruct (last (Bots d)) as [r|]; [|done]. by destruct (column r "Bot_ID").
Qed.

(** A loop with an invariant indexed by the elements already visited. *)
Lemma wp_for_each {A} (body : A → M unit) (I : list A → world → Prop)
    (Q : unit → world → Prop) E xs :
  ∀ seen w,
  I seen w →
  (∀ seen' x w', I seen' w' → wp (body x) (λ _, I (seen' ++ [x])) E w') →
  (∀ w', I (seen ++ xs) w' → Q () w') →
  wp (for_each xs body) Q E w.
Proof.
  induction xs as [|x xs IH]; intros seen w HI Hbody HQ; simpl.
  - apply wp_ret, HQ. by rewrite app_nil_r.
  - apply wp_bind. eapply wp_mono; [by apply Hbody | | done].
    intros [] w' HI'; simpl. apply (IH (seen ++ [x])); [done | done |].
    intros w'' HI''. apply HQ. by rewrite <- app_assoc in HI''.
Qed.

Arguments delete_where : simpl never.
Arguments update_where : simpl never.
Arguments insert_into : simpl never.
Arguments insert_bot : simpl never.
Arguments append_rows : simpl never.
Arguments select_all : simpl never.
Arguments select_link : simpl never.
Arguments select_linked : simpl never.
Arguments select_id_content : simpl never.
Arguments deleted : simpl never.
Arguments replaced : simpl never.
Arguments linked : simpl never.
Arguments link_one : simpl never.

Ltac wp_prim := unfold wp at 1; cbn.

Ltac wp_step :=
  lazymatch goal with
  | |- wp (try_finally _ _) _ _ _ => apply wp_try_finally
  | |- wp (try_except _ _) _ _ _ => apply wp_try_except
  | |- wp (with_conn _) _ _ _ => apply wp_with_conn
  | |- wp (_ ≫= _) _ _ _ => apply wp_bind
  | |- wp fault_point _ _ _ =>
      let H := fresh "Hplan" in
      apply wp_fault_point; [intros ? H | intros ? ? H]; cbn in H; cbn
  | |- wp (bound _) _ _ _ => apply wp_bound; [intros ? ? | intros ?]
  | |- wp (bound_all _) _ _ _ => apply wp_bound_all; [intros ? ? | intros ?]
  | |- wp (on_conn _) _ _ _ =>
      eapply wp_on_conn; [cbn; first [reflexivity | eassumption] | cbn];
      try lazymatch goal with
          | |- (let (_, _) := match ?x with _ => _ end in _) => destruct x eqn:?; cbn
          end
  | |- wp (for_each _ _) _ _ _ => fail
  | |- wp (if ?b then _ else _) _ _ _ => destruct b eqn:?
  | H : conn ?w = _ |- wp (match conn ?w with Some _ => _ | None => _ end) _ _ _ =>
      rewrite H
  | |- wp (match ?o with Some _ => _ | None => _ end) _ _ _ => destruct o eqn:?
  | |- wp (match ?l with [] => _ | _ :: _ => _ end) _ _ _ => destruct l eqn:?
  | |- wp execute_pragma _ _ _ => unfold execute_pragma
  | |- wp execute_begin _ _ _ => unfold execute_begin
  | |- wp (sql_write _) _ _ _ => unfold sql_write
  | |- wp (sql_read _) _ _ _ => unfold sql_read
  | |- wp (read_sql_query _) _ _ _ => unfold read_sql_query
  | |- wp (execute_delete _ _ _ _) _ _ _ => unfold execute_delete
  | |- wp (execute_update _ _ _ _ _) _ _ _ => unfold execute_update
  | |- wp (execute_insert_link _ _ _) _ _ _ => unfold execute_insert_link
  | |- wp (execute_select_link _ _ _) _ _ _ => unfold execute_select_link
  | |- wp commit _ _ _ => unfold commit
  | |- wp rollback _ _ _ => unfold rollback
  | |- wp (st_error2 _ _) _ _ _ => unfold st_error2
  | |- wp lastrowid _ _ _ => apply wp_lastrowid; intros ?
  | |- wp (to_sql _ _) _ _ _ => unfold to_sql
  | |- wp _ _ _ _ => wp_prim
  end.

Ltac wp_run := repeat wp_step.

(** In a run without faults the plan stays empty and no failure branch is
    taken. *)
Ltac no_fault :=
  repeat match goal with
  | H : False |- _ => destruct H
  | H : ?a = [], H' : ?a ≠ [] |- _ => destruct (H' H)
  | H : ?a = [], H' : ?a = [] → _ |- _ => specialize (H' H)
  end.

Section Specs.

Variable coerced_eq : string → string → value → value → bool.

Lemma delete_record_spec v tbl col w :
  wp (delete_record coerced_eq v tbl col)
     (λ _ w', conn w' = None ∧ cache w' = cache w ∧
              (disk w' = disk w ∨
               ∃ x, bind_param v = Some x ∧
                    deleted coerced_eq tbl col x (disk w) = Some (disk w')) ∧
              (faults w = [] → ∀ x d', bind_param v = Some x →
                 deleted coerced_eq tbl col x (disk w) = Some d' → disk w' = d'))
     (λ e w', e = TypeError ∧ conn w' = None ∧ cache w' = cache w ∧
              disk w' = disk w ∧
              (faults w = [] → ∀ x d', bind_param v = Some x →
                 deleted coerced_eq tbl col x (disk w) = Some d' → False))
     w.
Proof.
  unfold delete_record. wp_run; cbn.
  all: repeat split; auto.
  all: try (right; eexists; split; [eassumption|]).
  all: intros; no_fault; simplify_eq; unfold deleted in *;
    repeat match goal with H : (_ =? _) = _ |- _ => rewrite H in * end; cbn in *;
    repeat (match goal with
            | H : delete_where _ _ _ _ _ = _ |- _ => rewrite H in *; clear H
            end; cbn in *);
    simplify_eq; eauto.
Qed.

Lemma replaced_snoc b ks k d :
  insert_into "BotKnowledgeLink" (link_row (VInt b) (VInt k)) (replaced coerced_eq b ks d)
  = Some (replaced coerced_eq b (ks ++ [k]) d).
Proof.
  unfold insert_into, replaced. cbn. by rewrite map_app, app_assoc.
Qed.

Lemma replaced_nil b d :
  delete_where coerced_eq "BotKnowledgeLink" "Bot_ID" (VInt b) d
  = Some (replaced coerced_eq b [] d).
Proof. unfold delete_where, replaced. cbn. by rewrite app_nil_r. Qed.

Lemma update_bot_knowledge_links_spec b ks w :
  wp (update_bot_knowledge_links coerced_eq b ks)
     (λ _ w', conn w' = None ∧ cache w' = cache w ∧
              disk w' = replaced coerced_eq b ks (disk w))
     (λ _ w', is_Some (conn w') ∧ cache w' = cache w ∧ disk w' = disk w ∧
              faults w ≠ [])
     w.
Proof.
  unfold update_bot_knowledge_links. wp_run.
  all: rewrite ?replaced_nil in *; simplify_eq.
  2:{ cbn. repeat split; eauto. }
  apply (wp_for_each _
    (λ seen w', disk w' = disk w ∧ cache w' = cache w ∧
                conn w' = Some (Some (replaced coerced_eq b seen (disk w))) ∧
                (faults w = [] → faults w' = [])) _ _ ks []).
  - cbn; repeat split; auto; intros ?; no_fault; done.
  - intros seen k w' (Hd & Hc & Hconn & Hf).
    wp_run; rewrite ?replaced_snoc in *; simplify_eq; cbn; rewrite ?Hconn;
      repeat split; eauto.
  - cbn. intros w' (Hd & Hc & Hconn & Hf).
    wp_run; simplify_eq; cbn; rewrite ?Hconn; repeat split; eauto.
Qed.

Lemma for_each_fmap {A B} (f : A → B) (xs : list A) (body : B → M unit) :
  for_each (f <$> xs) body = for_each xs (λ x, body (f x)).
Proof. induction xs as [|x xs IH]; csimpl; [done | by rewrite IH]. Qed.

Lemma linked_snoc b ks k d :
  linked coerced_eq b (ks ++ [k]) d = link_one coerced_eq b (linked coerced_eq b ks d) k.
Proof. unfold linked. by rewrite foldl_app. Qed.

Lemma link_one_absent b k d :
  select_link coerced_eq b k d = Some [] →
  insert_into "BotKnowledgeLink" (link_row b k) d = Some (link_one coerced_eq b d k).
Proof. intros H. unfold link_one. rewrite H. done. Qed.

Lemma link_one_present b k d r rs :
  select_link coerced_eq b k d = Some (r :: rs) → link_one coerced_eq b d k = d.
Proof. intros H. unfold link_one. by rewrite H. Qed.

Lemma link_bot_to_knowledgebase_spec (b : Z) (ks : list Z) w :
  wp (link_bot_to_knowledgebase coerced_eq (PyInt b) (PyInt <$> ks))
     (λ _ w', conn w' = None ∧ cache w' = cache w ∧
              (disk w' = disk w ∨
               disk w' = linked coerced_eq (VInt b) (VInt <$> ks) (disk w)) ∧
              (faults w = [] →
               disk w' = linked coerced_eq (VInt b) (VInt <$> ks) (disk w) ∧
               faults w' = []))
     (λ e w', conn w' = None ∧ cache w' = cache w ∧ disk w' = disk w ∧
              is_sqlite3_Error e = false ∧ faults w ≠ [])
     w.
Proof.
  unfold link_bot_to_knowledgebase. rewrite for_each_fmap. wp_run.
  apply (wp_for_each _
    (λ seen w', disk w' = disk w ∧ cache w' = cache w ∧
                (∃ p, conn w' = Some p ∧
                      default (disk w) p
                      = linked coerced_eq (VInt b) (VInt <$> seen) (disk w)) ∧
                (faults w = [] → faults w' = [])) _ _ ks []).
  - cbn. repeat split; eauto.
  - intros seen k w' (Hd & Hc & (p & Hconn & Hp) & Hf).
    replace (VInt <$> seen ++ [k]) with ((VInt <$> seen) ++ [VInt k])
      by (by rewrite fmap_app).
    rewrite linked_snoc.
    wp_run; rewrite ?Hd, ?Hp in *; cbn; simplify_eq.
    all: try (unfold select_link, insert_into in *; cbn in *; simplify_eq; fail).
    all: repeat split; eauto.
    all: try (intros; no_fault; eauto; fail).
    + eexists; split; [done|]. cbn.
      apply link_one_absent in Heqo. congruence.
    + eexists; split; [done|]. cbn. by erewrite link_one_present.
  - cbn. intros w' (Hd & Hc & (p & Hconn & Hp) & Hf).
    wp_run; rewrite ?Hd, ?Hp in *; cbn; simplify_eq.
    all: repeat split; eauto.
    all: try (intros; no_fault; eauto; fail).
Qed.

Lemma update_record_spec v data tbl col w :
  wp (update_record coerced_eq v data tbl col)
     (λ _ w', conn w' = None ∧ cache w' = ∅ ∧
              (disk w' = disk w ∨
               ∃ x r, bind_param v = Some x ∧ bind_all (processed <$> data) = Some r ∧
                      update_where coerced_eq tbl r col x (disk w) = Some (disk w')) ∧
              (faults w = [] → ∀ x r d', bind_param v = Some x →
                 bind_all (processed <$> data) = Some r →
                 update_where coerced_eq tbl r col x (disk w) = Some d' → disk w' = d'))
     (λ e w', e = TypeError ∧ conn w' = None ∧ cache w' = ∅ ∧ disk w' = disk w ∧
              (faults w = [] → ∀ x r d', bind_param v = Some x →
                 bind_all (processed <$> data) = Some r →
                 update_where coerced_eq tbl r col x (disk w) = Some d' → False))
     w.
Proof.
  unfold update_record. wp_run; cbn.
  all: repeat split; eauto 6.
  all: intros; no_fault; simplify_eq; eauto.
Qed.



Lemma load_data_spec tbl w :
  wp (load_data tbl)
     (λ df w', disk w' = disk w ∧
               match cache w !! tbl with
               | Some df' => df = df' ∧ w' = w
               | None => table_of tbl (disk w) = Some df ∧ conn w' = None ∧
                         cache w' = <[tbl := df]> (cache w)
               end)
     (λ _ w', disk w' = disk w ∧ cache w' = cache w ∧ cache w !! tbl = None ∧
              is_Some (conn w'))
     w.
Proof.
  unfold load_data. wp_run; cbn.
  all: repeat match goal with H : cache _ !! _ = _ |- _ => rewrite H end.
  all: repeat split; eauto.
Qed.



(** ** From a specification to the run *)

Lemma wp_run_result {A} (m : M A) Q E w :
  wp m Q E w →
  match result m w with
  | Ret a => Q a (run m w)
  | Raise e => E e (run m w)
  end.
Proof. unfold wp, result, run. by destruct (m w) as [[a|e] w']. Qed.

Lemma wp_run_any {A} (m : M A) (P : world → Prop) w :
  wp m (λ _, P) (λ _, P) w → P (run m w).
Proof. unfold wp, run. by destruct (m w) as [[a|e] w']. Qed.

(** ** The link rows *)

Lemma column_link_row_bot b k : column (link_row b k) "Bot_ID" = b.
Proof. done. Qed.

Lemma column_link_row_kb b k : column (link_row b k) "KnowledgeBase_ID" = k.
Proof. done. Qed.

Lemma matches_link_row_bot tbl b b' k :
  matches coerced_eq tbl "Bot_ID" (VInt b) (link_row (VInt b') k) = Z.eqb b' b.
Proof. done. Qed.

Lemma matches_link_row_kb tbl b k k' :
  matches coerced_eq tbl "KnowledgeBase_ID" (VInt k) (link_row b (VInt k')) = Z.eqb k' k.
Proof. done. Qed.

Lemma filter_negb_twice {A} (p : A → bool) (l : list A) :
  List.filter p (List.filter (λ x, negb (p x)) l) = [].
Proof.
  induction l as [|x l IH]; simpl; [done|].
  destruct (p x) eqn:Hp; simpl; [done|]. by rewrite Hp.
Qed.

Lemma filter_idem {A} (p : A → bool) (l : list A) :
  List.filter p (List.filter p l) = List.filter p l.
Proof.
  induction l as [|x l IH]; simpl; [done|].
  destruct (p x) eqn:Hp; simpl; [|done]. by rewrite Hp, IH.
Qed.

Lemma filter_all {A} (p : A → bool) (l : list A) :
  Forall (λ x, p x = true) l → List.filter p l = l.
Proof. induction 1 as [|x l Hx _ IH]; simpl; [done|]. by rewrite Hx, IH. Qed.

Lemma filter_none {A} (p : A → bool) (l : list A) :
  Forall (λ x, p x = false) l → List.filter p l = [].
Proof. induction 1 as [|x l Hx _ IH]; simpl; [done|]. by rewrite Hx. Qed.

(** ** [update_bot_knowledge_links]: the replaced set *)

Lemma links_of_replaced b ks d :
  links_of coerced_eq b (replaced coerced_eq b ks d)
  = map (λ k, link_row (VInt b) (VInt k)) ks.
Proof.
  unfold links_of, replaced. cbn. rewrite List.filter_app.
  rewrite (filter_negb_twice (matches coerced_eq "BotKnowledgeLink" "Bot_ID" (VInt b))).
  cbn. apply filter_all, Forall_forall. intros r Hr.
  apply list_elem_of_In, in_map_iff in Hr as (k & <- & _).
  rewrite matches_link_row_bot. apply Z.eqb_refl.
Qed.

Lemma unselected_replaced b ks d :
  unselected coerced_eq "BotKnowledgeLink" "Bot_ID" (VInt b)
             (BotKnowledgeLink (replaced coerced_eq b ks d))
  = unselected coerced_eq "BotKnowledgeLink" "Bot_ID" (VInt b) (BotKnowledgeLink d).
Proof.
  unfold unselected, replaced. cbn. rewrite List.filter_app, filter_idem.
  rewrite (filter_none _ (map _ ks)); [by rewrite app_nil_r|].
  apply Forall_forall. intros r Hr.
  apply list_elem_of_In, in_map_iff in Hr as (k & <- & _).
  by rewrite matches_link_row_bot, Z.eqb_refl.
Qed.

Lemma update_bot_knowledge_links_disk b ks w :
  let m := update_bot_knowledge_links coerced_eq b ks in
  match result m w with
  | Ret _ => disk (run m w) = replaced coerced_eq b ks (disk w)
  | Raise _ => disk (run m w) = disk w
  end.
Proof.
  intros m. pose proof (wp_run_result _ _ _ _ (update_bot_knowledge_links_spec b ks w)) as H.
  fold m in H. destruct (result m w); tauto.
Qed.

(** C2: when [update_bot_knowledge_links] fails, at the deletion, at the
    insertion of any of the new links or at the commit, nothing of it
    reaches the store: the file is as before the call, and so is the set of
    links of the bot; the links deleted in the first phase are still there. *)
Theorem update_links_failure_leaves_links b ks w e :
  result (update_bot_knowledge_links coerced_eq b ks) w = Raise e →
  disk (run (update_bot_knowledge_links coerced_eq b ks) w) = disk w ∧
  links_of coerced_eq b (disk (run (update_bot_knowledge_links coerced_eq b ks) w))
  = links_of coerced_eq b (disk w).
Proof.
  intros Hr. pose proof (update_bot_knowledge_links_disk b ks w) as H.
  cbn in H. rewrite Hr in H. by rewrite H.
Qed.

(** C5: when [update_bot_knowledge_links b ks] succeeds, the links of [b]
    are exactly one fresh row [(b, k)] per key [k] of [ks], in the order of
    [ks]; none of the former links of [b] is left. *)
Theorem update_links_success_exact b ks w :
  result (update_bot_knowledge_links coerced_eq b ks) w = Ret () →
  links_of coerced_eq b (disk (run (update_bot_knowledge_links coerced_eq b ks) w))
  = map (λ k, link_row (VInt b) (VInt k)) ks.
Proof.
  intros Hr. pose proof (update_bot_knowledge_links_disk b ks w) as H.
  cbn in H. rewrite Hr in H. rewrite H. apply links_of_replaced.
Qed.

(** ** [delete_record]: what is deleted and what is not *)

Lemma deleted_Bots col x d d' :
  deleted coerced_eq "Bots" col x d = Some d' →
  BotKnowledgeLink d' = unselected coerced_eq "BotKnowledgeLink" "Bot_ID" x (BotKnowledgeLink d) ∧
  Bots d' = unselected coerced_eq "Bots" col x (Bots d) ∧
  KnowledgeBase d' = KnowledgeBase d.
Proof. unfold deleted, delete_where. cbn. by intros [= <-]. Qed.

Lemma deleted_KnowledgeBase col x d d' :
  deleted coerced_eq "KnowledgeBase" col x d = Some d' →
  BotKnowledgeLink d'
  = unselected coerced_eq "BotKnowledgeLink" "KnowledgeBase_ID" x (BotKnowledgeLink d) ∧
  KnowledgeBase d' = unselected coerced_eq "KnowledgeBase" col x (KnowledgeBase d) ∧
  Bots d' = Bots d.
Proof. unfold deleted, delete_where. cbn. by intros [= <-]. Qed.

Lemma unselected_idem tbl col x t :
  unselected coerced_eq tbl col x (unselected coerced_eq tbl col x t)
  = unselected coerced_eq tbl col x t.
Proof. apply filter_idem. Qed.

(** The store after [delete_record] is the one before, or the one with the
    links and the row deleted: never one of the two deletions alone. *)
Lemma delete_record_all_or_nothing v tbl col w :
  let w' := run (delete_record coerced_eq v tbl col) w in
  disk w' = disk w ∨
  ∃ x, bind_param v = Some x ∧ deleted coerced_eq tbl col x (disk w) = Some (disk w').
Proof.
  apply (wp_run_any _ (λ w', disk w' = disk w ∨ ∃ x, bind_param v = Some x ∧
                              deleted coerced_eq tbl col x (disk w) = Some (disk w'))).
  eapply wp_mono; [apply delete_record_spec | |]; cbn; tauto.
Qed.

(** C10: the link operations touch only the rows of their key.
    [update_bot_knowledge_links b ks] and [delete_record b "Bots" col] leave
    the link rows that [Bot_ID = b] does not select as they were, and
    [delete_record k "KnowledgeBase" col] those that [KnowledgeBase_ID = k]
    does not select; the rows of the two other tables that the given key
    does not select are as they were too.  This holds whatever fails. *)
Theorem link_operations_frame w :
  (∀ b ks,
     let d' := disk (run (update_bot_knowledge_links coerced_eq b ks) w) in
     unselected coerced_eq "BotKnowledgeLink" "Bot_ID" (VInt b) (BotKnowledgeLink d')
     = unselected coerced_eq "BotKnowledgeLink" "Bot_ID" (VInt b) (BotKnowledgeLink (disk w)) ∧
     Bots d' = Bots (disk w) ∧ KnowledgeBase d' = KnowledgeBase (disk w)) ∧
  (∀ b col,
     let d' := disk (run (delete_record coerced_eq (PyInt b) "Bots" col) w) in
     unselected coerced_eq "BotKnowledgeLink" "Bot_ID" (VInt b) (BotKnowledgeLink d')
     = unselected coerced_eq "BotKnowledgeLink" "Bot_ID" (VInt b) (BotKnowledgeLink (disk w)) ∧
     unselected coerced_eq "Bots" col (VInt b) (Bots d')
     = unselected coerced_eq "Bots" col (VInt b) (Bots (disk w)) ∧
     KnowledgeBase d' = KnowledgeBase (disk w)) ∧
  (∀ k col,
     let d' := disk (run (delete_record coerced_eq (PyInt k) "KnowledgeBase" col) w) in
     unselected coerced_eq "BotKnowledgeLink" "KnowledgeBase_ID" (VInt k) (BotKnowledgeLink d')
     = unselected coerced_eq "BotKnowledgeLink" "KnowledgeBase_ID" (VInt k)
                  (BotKnowledgeLink (disk w)) ∧
     unselected coerced_eq "KnowledgeBase" col (VInt k) (KnowledgeBase d')
     = unselected coerced_eq "KnowledgeBase" col (VInt k) (KnowledgeBase (disk w)) ∧
     Bots d' = Bots (disk w)).
Proof.
  split; [|split].
  - intros b ks d'. subst d'.
    pose proof (update_bot_knowledge_links_disk b ks w) as H. cbn in H.
    destruct (result _ w); rewrite H; [|done].
    by rewrite unselected_replaced.
  - intros b col d'. subst d'.
    destruct (delete_record_all_or_nothing (PyInt b) "Bots" col w) as [->|(x & [= <-] & H)];
      [done|].
    apply deleted_Bots in H as (-> & -> & ->). by rewrite !unselected_idem.
  - intros k col d'. subst d'.
    destruct (delete_record_all_or_nothing (PyInt k) "KnowledgeBase" col w)
      as [->|(x & [= <-] & H)]; [done|].
    apply deleted_KnowledgeBase in H as (-> & -> & ->). by rewrite !unselected_idem.
Qed.

(** ** [link_bot_to_knowledgebase]: one row per pair *)

Lemma select_link_between b k d :
  select_link coerced_eq (VInt b) (VInt k) d = Some (links_between coerced_eq b k d).
Proof. done. Qed.

Lemma links_between_link_one b k k' d :
  links_between coerced_eq b k (link_one coerced_eq (VInt b) d (VInt k'))
  = links_between coerced_eq b k d
    ++ match links_between coerced_eq b k' d with
       | [] => if Z.eqb k' k then [link_row (VInt b) (VInt k')] else []
       | _ :: _ => []
       end.
Proof.
  unfold link_one. rewrite select_link_between.
  destruct (links_between coerced_eq b k' d) as [|r rs] eqn:Hk'; [|by rewrite app_nil_r].
  unfold links_between at 1. cbn. rewrite List.filter_app. f_equal.
  cbn. rewrite matches_link_row_bot, matches_link_row_kb, Z.eqb_refl. cbn.
  by destruct (Z.eqb k' k).
Qed.

Lemma linked_cons b k ks d :
  linked coerced_eq b (k :: ks) d = linked coerced_eq b ks (link_one coerced_eq b d k).
Proof. done. Qed.

Lemma linked_count b ks : ∀ d k,
  length (links_between coerced_eq b k (linked coerced_eq (VInt b) (VInt <$> ks) d))
  = if bool_decide (k ∈ ks)
    then Nat.max 1 (length (links_between coerced_eq b k d))
    else length (links_between coerced_eq b k d).
Proof.
  induction ks as [|k' ks IH]; intros d k.
  - rewrite bool_decide_eq_false_2; [done | apply not_elem_of_nil].
  - rewrite fmap_cons, linked_cons, IH, links_between_link_one, length_app.
    destruct (decide (k = k')) as [->|Hne].
    + rewrite Z.eqb_refl, (bool_decide_eq_true_2 (k' ∈ k' :: ks)) by apply list_elem_of_here.
      destruct (links_between coerced_eq b k' d); case_bool_decide; simpl; lia.
    + assert (Z.eqb k' k = false) as -> by (apply Z.eqb_neq; congruence).
      assert (bool_decide (k ∈ k' :: ks) = bool_decide (k ∈ ks)) as ->.
      { apply bool_decide_ext. rewrite elem_of_cons. intuition congruence. }
      destruct (links_between coerced_eq b k' d); simpl; rewrite Nat.add_0_r; done.
Qed.

Lemma linked_present b ks : ∀ d,
  (∀ k, k ∈ ks → links_between coerced_eq b k d ≠ []) →
  linked coerced_eq (VInt b) (VInt <$> ks) d = d.
Proof.
  induction ks as [|k ks IH]; intros d Hd; [done|].
  rewrite fmap_cons, linked_cons.
  assert (link_one coerced_eq (VInt b) d (VInt k) = d) as ->.
  { unfold link_one. rewrite select_link_between.
    destruct (links_between coerced_eq b k d) eqn:Hk; [|done].
    by destruct (Hd k (list_elem_of_here _ _)). }
  apply IH. intros k' Hk'. apply Hd. by apply list_elem_of_further.
Qed.

Lemma linked_idem b ks d :
  linked coerced_eq (VInt b) (VInt <$> ks) (linked coerced_eq (VInt b) (VInt <$> ks) d)
  = linked coerced_eq (VInt b) (VInt <$> ks) d.
Proof.
  apply linked_present. intros k Hk Hnil.
  pose proof (linked_count b ks d k) as Hc.
  rewrite Hnil, bool_decide_eq_true_2 in Hc by done. simpl in Hc. lia.
Qed.

Lemma link_bot_to_knowledgebase_no_fault b ks w :
  faults w = [] →
  let w' := run (link_bot_to_knowledgebase coerced_eq (PyInt b) (PyInt <$> ks)) w in
  disk w' = linked coerced_eq (VInt b) (VInt <$> ks) (disk w) ∧ faults w' = [].
Proof.
  intros Hf.
  apply (wp_run_any _ (λ w', disk w' = linked coerced_eq (VInt b) (VInt <$> ks) (disk w) ∧
                              faults w' = [])).
  eapply wp_mono; [apply link_bot_to_knowledgebase_spec | |]; cbn.
  - intros _ w' (_ & _ & _ & H). auto.
  - intros _ w' (_ & _ & _ & _ & H). done.
Qed.

(** C3: [link_bot_to_knowledgebase] inserts a link only for a pair that is
    absent.  After a call that meets no failure every pair [(b, k)] with
    [k] in the list has one row if it had none or one before (and as many
    as before otherwise), also when [k] occurs several times in the list; a
    second call with the same arguments leaves the store as the first one
    left it. *)
Theorem link_bot_to_knowledgebase_idempotent b ks w :
  faults w = [] →
  let link := link_bot_to_knowledgebase coerced_eq (PyInt b) (PyInt <$> ks) in
  (∀ k, k ∈ ks →
     length (links_between coerced_eq b k (disk (run link w)))
     = Nat.max 1 (length (links_between coerced_eq b k (disk w)))) ∧
  disk (run link (run link w)) = disk (run link w).
Proof.
  intros Hf link.
  destruct (link_bot_to_knowledgebase_no_fault b ks w Hf) as [Hd Hf'].
  destruct (link_bot_to_knowledgebase_no_fault b ks _ Hf') as [Hd' _].
  fold link in Hd, Hf', Hd'. split.
  - intros k Hk. by rewrite Hd, linked_count, bool_decide_eq_true_2.
  - by rewrite Hd', Hd, linked_idem.
Qed.

(** ** [update_record]: what is stored *)

Lemma table_of_with_table tbl t d : table_of tbl (with_table tbl t d) = Some t.
Proof.
  unfold table_of, with_table.
  destruct (String.eqb tbl "Bots") eqn:H1; cbn; [done|].
  destruct (String.eqb tbl "KnowledgeBase") eqn:H2; cbn; [done|].
  destruct (String.eqb tbl "BotKnowledgeLink") eqn:H3; cbn; [done|].
  apply lookup_insert_eq.
Qed.

Lemma table_of_with_table_ne tbl tbl' t d :
  tbl ≠ tbl' → table_of tbl (with_table tbl' t d) = table_of tbl d.
Proof.
  intros Hne. unfold table_of, with_table.
  destruct (String.eqb tbl' "Bots") eqn:H1; cbn.
  { apply String.eqb_eq in H1 as ->. by apply String.eqb_neq in Hne as ->. }
  destruct (String.eqb tbl' "KnowledgeBase") eqn:H2; cbn.
  { apply String.eqb_eq in H2 as ->. by apply String.eqb_neq in Hne as ->. }
  destruct (String.eqb tbl' "BotKnowledgeLink") eqn:H3; cbn.
  { apply String.eqb_eq in H3 as ->. by apply String.eqb_neq in Hne as ->. }
  destruct (String.eqb tbl "Bots"); [done|].
  destruct (String.eqb tbl "KnowledgeBase"); [done|].
  destruct (String.eqb tbl "BotKnowledgeLink"); [done|].
  by apply lookup_insert_ne.
Qed.

Lemma bind_param_processed v :
  bind_param (processed v) = Some (stored v).
Proof.
  unfold stored, processed.
  destruct v as [| | |n|s]; cbn; try done. by destruct (String.eqb s "None").
Qed.

Lemma bind_all_processed (data : gmap string pyval) :
  bind_all (processed <$> data) = Some (stored <$> data).
Proof.
  unfold bind_all. rewrite decide_True.
  - f_equal. apply map_eq. intros k.
    rewrite lookup_omap, !lookup_fmap. destruct (data !! k) as [v|]; cbn; [|done].
    apply bind_param_processed.
  - intros k v. rewrite lookup_fmap. destruct (data !! k) as [v'|]; cbn; [|done].
    intros [= <-]. rewrite bind_param_processed. eauto.
Qed.

Lemma stored_missing v : is_missing v = true → stored v = VNull.
Proof.
  unfold stored, processed.
  destruct v as [| | |n|s]; cbn; try done. by intros ->.
Qed.

Lemma stored_present v :
  is_missing v = false →
  stored v = match v with PyInt n => VInt n | PyStr s => VText s | _ => VNull end.
Proof.
  unfold stored, processed.
  destruct v as [| | |n|s]; cbn; try done. by intros ->.
Qed.

Lemma update_record_table rid data tbl col w t x :
  faults w = [] →
  table_of tbl (disk w) = Some t →
  bind_param rid = Some x →
  table_of tbl (disk (run (update_record coerced_eq rid data tbl col) w))
  = Some (if decide (data = ∅) then t
          else updated_rows coerced_eq tbl (stored <$> data) col x t).
Proof.
  intros Hf Ht Hx.
  apply (wp_run_any _ (λ w', table_of tbl (disk w') = Some _)).
  eapply wp_mono; [apply update_record_spec | |]; cbn.
  - intros _ w' (_ & _ & Hd & Hnf).
    specialize (Hnf Hf x (stored <$> data)). rewrite bind_all_processed in *.
    unfold update_where in *. rewrite Ht in *. cbn in *.
    destruct (decide (data = ∅)) as [->|Hne].
    + rewrite fmap_empty in Hd.
      destruct Hd as [->|(x' & r & _ & [= <-] & Hd)]; [done|].
      by rewrite decide_True in Hd.
    + rewrite decide_False in Hnf by (by rewrite fmap_empty_iff).
      erewrite Hnf; [apply table_of_with_table | done..].
  - intros _ w' (_ & _ & _ & -> & Hnf).
    specialize (Hnf Hf x (stored <$> data)). rewrite bind_all_processed in Hnf.
    unfold update_where in Hnf. rewrite Ht in Hnf. cbn in Hnf.
    destruct (decide (data = ∅)) as [->|Hne]; [done|].
    rewrite decide_False in Hnf by (by rewrite fmap_empty_iff).
    destruct (Hnf _ Hx eq_refl eq_refl).
Qed.

Lemma updated_rows_lookup tbl sets col x t i r :
  t !! i = Some r →
  matches coerced_eq tbl col x r = true →
  updated_rows coerced_eq tbl sets col x t !! i = Some (sets ∪ r).
Proof.
  intros Hi Hm. unfold updated_rows.
  change (map ?f t) with (f <$> t). by rewrite list_lookup_fmap, Hi; cbn; rewrite Hm.
Qed.

(** C9: [update_record] stores NULL for more than a missing value: in
    every row it updates, a column whose supplied value is [None], NaN,
    [pd.NA] or the string ["None"] holds NULL afterwards, so the text
    ["None"] cannot be stored through an update. *)
Theorem update_record_None_is_null rid data tbl col w t x i r :
  faults w = [] →
  table_of tbl (disk w) = Some t →
  bind_param rid = Some x →
  t !! i = Some r →
  matches coerced_eq tbl col x r = true →
  ∃ t' r',
    table_of tbl (disk (run (update_record coerced_eq rid data tbl col) w)) = Some t' ∧
    t' !! i = Some r' ∧
    ∀ k v, data !! k = Some v → is_missing v = true → r' !! k = Some VNull.
Proof.
  intros Hf Ht Hx Hi Hm.
  rewrite (update_record_table _ _ _ _ _ t x) by done.
  destruct (decide (data = ∅)) as [->|Hne].
  - exists t, r. by split; [|split].
  - eexists _, _. split; [done|]. split; [by apply updated_rows_lookup|].
    intros k v Hk Hv. apply lookup_union_Some_l.
    by rewrite lookup_fmap, Hk; cbn; rewrite stored_missing.
Qed.

(** ** The "Update Record" form *)

Lemma wp_of_run {A} (m : M A) (Q : A → world → Prop) E w :
  (∀ a, result m w = Ret a → Q a (run m w)) →
  (∀ e, result m w = Raise e → E e (run m w)) →
  wp m Q E w.
Proof. unfold wp, result, run. destruct (m w) as [[a|e] w']; cbn; auto. Qed.

Lemma table_of_replaced tbl b ks d :
  tbl ≠ "BotKnowledgeLink" →
  table_of tbl (replaced coerced_eq b ks d) = table_of tbl d.
Proof. intros Hne. unfold replaced. by apply table_of_with_table_ne. Qed.

Lemma stored_form_data (fields : gmap string string) :
  stored <$> form_data fields = form_stored <$> fields.
Proof.
  unfold form_data. rewrite <- map_fmap_compose. apply map_fmap_ext.
  intros k s _. unfold form_stored, stored, processed. cbn.
  destruct (String.eqb s EmptyString) eqn:H1; cbn; [done|].
  by destruct (String.eqb s "None").
Qed.

Lemma update_record_form_table rid fields tbl bot_id ks w :
  tbl ≠ "BotKnowledgeLink" →
  table_of tbl (disk (run (update_record_form coerced_eq rid fields tbl bot_id ks) w))
  = table_of tbl (disk (run (update_record coerced_eq (PyStr rid) (form_data fields) tbl
                                            (identifier_column_of tbl)) w)).
Proof.
  intros Hne.
  apply (wp_run_any _ (λ w', table_of tbl (disk w') = table_of tbl (disk (run _ w)))).
  unfold update_record_form. apply wp_bind, wp_of_run.
  - intros [] _. set (w1 := run _ w). apply wp_bind.
    destruct bot_id as [b|]; [destruct (Z.eqb b 0)|]; try (by wp_run).
    eapply wp_mono; [apply update_bot_knowledge_links_spec | |]; cbn.
    + intros _ w' (_ & _ & ->). by rewrite table_of_replaced.
    + intros _ w' (_ & _ & -> & _). done.
  - done.
Qed.

(** C6, as the code has it: through the "Update Record" form a field left
    empty is stored as NULL, and so is a field whose text is ["None"];
    every other text is stored as typed.  This is what every row selected
    by the identifier holds afterwards, for each field of the form. *)
Theorem update_record_form_stores rid fields tbl bot_id ks w t i r :
  faults w = [] →
  tbl ≠ "BotKnowledgeLink" →
  table_of tbl (disk w) = Some t →
  t !! i = Some r →
  matches coerced_eq tbl (identifier_column_of tbl) (VText rid) r = true →
  ∃ t' r',
    table_of tbl (disk (run (update_record_form coerced_eq rid fields tbl bot_id ks) w))
    = Some t' ∧
    t' !! i = Some r' ∧
    ∀ k s, fields !! k = Some s → r' !! k = Some (form_stored s).
Proof.
  intros Hf Hne Ht Hi Hm.
  rewrite update_record_form_table by done.
  rewrite (update_record_table _ _ _ _ _ t (VText rid)) by done.
  destruct (decide (form_data fields = ∅)) as [He|He].
  - exists t, r. split; [done|]. split; [done|]. intros k s Hk.
    apply fmap_empty_inv in He. by rewrite He in Hk.
  - eexists _, _. split; [done|]. split; [by apply updated_rows_lookup|].
    intros k s Hk. apply lookup_union_Some_l.
    by rewrite stored_form_data, lookup_fmap, Hk.
Qed.

(** ** Referential integrity *)

Lemma elem_of_int_keys c t n :
  n ∈ int_keys c t ↔ ∃ r, r ∈ t ∧ column r c = VInt n.
Proof.
  unfold int_keys. rewrite list_elem_of_omap. split.
  - intros (r & Hr & Hc). exists r. split; [done|].
    destruct (column r c); by simplify_eq.
  - intros (r & Hr & Hc). exists r. split; [done|]. by rewrite Hc.
Qed.













(** Deleting by the integer key on the key column selects the links of the
    rows deleted, whatever the schema. *)
Lemma links_selected_int_key parent key fk n rows d :
  links_selected coerced_eq parent key fk key (VInt n) rows d = true.
Proof.
  unfold links_selected. apply forallb_forall. intros r _.
  unfold matches at 1. destruct (column r key) as [|m|s] eqn:Hk; cbn; try done.
  - destruct (Z.eqb m n) eqn:Hmn; [|done]. cbn. apply Z.eqb_eq in Hmn as ->.
    apply forallb_forall. intros l _. case_bool_decide as Hl; [|done]. cbn.
    unfold matches. rewrite Hl. cbn. apply Z.eqb_refl.
  - apply orb_true_r.
Qed.

(** A row that no link references can be deleted through any column. *)
Lemma links_selected_unlinked parent key fk col x rows d :
  (∀ r n, r ∈ rows → matches coerced_eq parent col x r = true →
          column r key = VInt n →
          ∀ l, l ∈ BotKnowledgeLink d → column l fk ≠ VInt n) →
  links_selected coerced_eq parent key fk col x rows d = true.
Proof.
  intros H. unfold links_selected. apply forallb_forall. intros r Hr.
  destruct (matches coerced_eq parent col x r) eqn:Hm; [|done]. cbn.
  destruct (column r key) as [|n|s] eqn:Hk; try done.
  apply forallb_forall. intros l Hl.
  rewrite bool_decide_eq_false_2; [done|].
  eapply H; [by apply list_elem_of_In | done | done | by apply list_elem_of_In].
Qed.













(** ** The cache and the connection *)

Lemma delete_record_form_disk rid tbl w :
  String.eqb rid (String.append "Select " (delete_column_of tbl)) = false →
  disk (run (delete_record_form coerced_eq rid tbl) w)
  = disk (run (delete_record coerced_eq (PyStr rid) tbl (delete_column_of tbl)) w).
Proof.
  intros Hsel.
  apply (wp_run_any _ (λ w', disk w' = disk (run _ w))).
  unfold delete_record_form. rewrite Hsel. apply wp_bind, wp_of_run; [|done].
  intros [] _. by wp_run.
Qed.


(** [delete_record] and the two link functions never touch the cache. *)
Lemma writes_that_keep_the_cache w :
  (∀ v tbl col, cache (run (delete_record coerced_eq v tbl col) w) = cache w) ∧
  (∀ b ks, cache (run (link_bot_to_knowledgebase coerced_eq (PyInt b) (PyInt <$> ks)) w)
           = cache w) ∧
  (∀ b ks, cache (run (update_bot_knowledge_links coerced_eq b ks) w) = cache w).
Proof.
  split; [|split]; intros; apply (wp_run_any _ (λ w', cache w' = cache w)).
  - eapply wp_mono; [apply delete_record_spec | |]; cbn; tauto.
  - eapply wp_mono; [apply link_bot_to_knowledgebase_spec | |]; cbn; tauto.
  - eapply wp_mono; [apply update_bot_knowledge_links_spec | |]; cbn; tauto.
Qed.

(** [delete_record] catches every exception, rolls back and closes its
    connection.  Its report is the call [st.error(msg, e)], which is
    itself rejected: after a failure the function raises [TypeError], the
    store being as before. *)
Lemma delete_record_returns_closed v tbl col w :
  conn (run (delete_record coerced_eq v tbl col) w) = None ∧
  ∀ e, result (delete_record coerced_eq v tbl col) w = Raise e →
       e = TypeError ∧ disk (run (delete_record coerced_eq v tbl col) w) = disk w.
Proof.
  pose proof (wp_run_result _ _ _ _ (delete_record_spec v tbl col w)) as H.
  destruct (result _ w) as [[]|e].
  - split; [tauto | done].
  - destruct H as (-> & ? & _ & ? & _). split; [done|]. by intros ? [= <-].
Qed.

(** [update_bot_knowledge_links] has no handler: when a statement fails
    the exception leaves the function and the connection stays open. *)
Lemma update_bot_knowledge_links_raises_open b ks w e :
  result (update_bot_knowledge_links coerced_eq b ks) w = Raise e →
  is_Some (conn (run (update_bot_knowledge_links coerced_eq b ks) w)).
Proof.
  intros Hr.
  pose proof (wp_run_result _ _ _ _ (update_bot_knowledge_links_spec b ks w)) as H.
  rewrite Hr in H. tauto.
Qed.

(** ** Further properties of the operations *)

Lemma with_table_same tbl t d : table_of tbl d = Some t → with_table tbl t d = d.
Proof.
  unfold table_of, with_table. destruct d as [bs kb ls ot]; cbn.
  destruct (String.eqb tbl "Bots"); [by intros [= ->]|].
  destruct (String.eqb tbl "KnowledgeBase"); [by intros [= ->]|].
  destruct (String.eqb tbl "BotKnowledgeLink"); [by intros [= ->]|].
  intros H. by rewrite insert_id.
Qed.

Lemma filter_matches_unselected tbl col x t :
  List.filter (matches coerced_eq tbl col x) (unselected coerced_eq tbl col x t) = [].
Proof. apply filter_negb_twice. Qed.

Lemma int_key_matches tbl c n t :
  List.filter (matches coerced_eq tbl c (VInt n)) t = [] → n ∉ int_keys c t.
Proof.
  intros Hf [r [Hr Hc]]%elem_of_int_keys.
  assert (r ∈ List.filter (matches coerced_eq tbl c (VInt n)) t) as Hin.
  { apply list_elem_of_In, filter_In. split; [by apply list_elem_of_In|].
    unfold matches. rewrite Hc. cbn. apply Z.eqb_refl. }
  rewrite Hf in Hin. by apply not_elem_of_nil in Hin.
Qed.

Lemma delete_record_no_fault v x tbl col w d' :
  faults w = [] →
  bind_param v = Some x →
  deleted coerced_eq tbl col x (disk w) = Some d' →
  disk (run (delete_record coerced_eq v tbl col) w) = d'.
Proof.
  intros Hf Hx Hd.
  apply (wp_run_any _ (λ w', disk w' = d')).
  eapply wp_mono; [apply delete_record_spec | |]; cbn.
  - intros _ w' (_ & _ & _ & H). eauto.
  - intros _ w' (_ & _ & _ & _ & H). destruct (H Hf x d' Hx Hd).
Qed.

(** X1: When no statement fails, [delete_record] called with the integer key of
    a bot on column [Bot_ID] leaves no bot row with that key and no link of
    that bot; called with the key of a knowledge entry on column [ID] it
    leaves no such entry and no link to it. *)
Theorem delete_record_by_key_cascades n w :
  faults w = [] →
  (let d' := disk (run (delete_record coerced_eq (PyInt n) "Bots" "Bot_ID") w) in
   links_of coerced_eq n d' = [] ∧ n ∉ bot_keys d') ∧
  (let d' := disk (run (delete_record coerced_eq (PyInt n) "KnowledgeBase" "ID") w) in
   List.filter (matches coerced_eq "BotKnowledgeLink" "KnowledgeBase_ID" (VInt n))
               (BotKnowledgeLink d') = [] ∧
   n ∉ kb_keys d').
Proof.
  intros Hf. split.
  - erewrite delete_record_no_fault; [|done|done|reflexivity]. cbn. split.
    + apply filter_matches_unselected.
    + apply (int_key_matches "Bots"). apply filter_matches_unselected.
  - erewrite delete_record_no_fault; [|done|done|reflexivity]. cbn. split.
    + apply filter_matches_unselected.
    + apply (int_key_matches "KnowledgeBase"). apply filter_matches_unselected.
Qed.



Lemma update_record_disk rid data tbl col w :
  let m := update_record coerced_eq rid data tbl col in
  conn (run m w) = None ∧ cache (run m w) = ∅ ∧
  (disk (run m w) = disk w ∨
   ∃ x, bind_param rid = Some x ∧
        update_where coerced_eq tbl (stored <$> data) col x (disk w)
        = Some (disk (run m w))).
Proof.
  intros m.
  pose proof (wp_run_result _ _ _ _ (update_record_spec rid data tbl col w)) as H.
  fold m in H. destruct (result m w) as [[]|e].
  - destruct H as (Hc & Hca & Hd & _). repeat split; auto.
    destruct Hd as [Hd|(x & r & Hx & Hr & Hd)]; [by left|right].
    rewrite bind_all_processed in Hr. simplify_eq. eauto.
  - destruct H as (_ & Hc & Hca & Hd & _). repeat split; auto.
Qed.

(** With an empty plan [update_record] fails only on a statement that
    cannot be written or bound; the failure of its handler is then what
    leaves it. *)
Lemma update_record_result rid x data tbl col w t :
  faults w = [] →
  table_of tbl (disk w) = Some t →
  bind_param rid = Some x →
  result (update_record coerced_eq rid data tbl col) w
  = if decide (data = ∅) then Raise TypeError else Ret ().
Proof.
  intros Hf Ht Hx.
  assert (wp (update_record coerced_eq rid data tbl col)
             (λ _ _, data ≠ ∅) (λ e _, e = TypeError ∧ data = ∅) w) as Hwp.
  { unfold update_record, execute_update, bound_all. cbv zeta.
    rewrite bind_all_processed.
    wp_run; cbn; try (no_fault; fail); simplify_eq.
    all: unfold update_where in *; rewrite Ht in *; cbn in *.
    all: case_decide as He; simplify_eq; rewrite fmap_empty_iff in He; done. }
  apply wp_run_result in Hwp. destruct (result _ w) as [[]|e].
  - by rewrite decide_False.
  - destruct Hwp as [-> ->]. by rewrite decide_True.
Qed.

Lemma updated_rows_none tbl sets col x t :
  Forall (λ r, matches coerced_eq tbl col x r = false) t →
  updated_rows coerced_eq tbl sets col x t = t.
Proof.
  unfold updated_rows. induction 1 as [|r t Hr _ IH]; cbn; [done|].
  by rewrite Hr, IH.
Qed.

(** X3: An update whose key selects no row of the table changes nothing,
    whatever the store answers, and is not an error: when no statement
    fails and a column is supplied, [update_record] returns normally.
    With no column at all the UPDATE cannot be written; the handler is
    entered and its report, [st.error(msg, e)], raises [TypeError]. *)
Theorem update_record_no_match rid x data tbl col w t :
  table_of tbl (disk w) = Some t →
  bind_param rid = Some x →
  Forall (λ r, matches coerced_eq tbl col x r = false) t →
  disk (run (update_record coerced_eq rid data tbl col) w) = disk w ∧
  (faults w = [] →
   result (update_record coerced_eq rid data tbl col) w
   = if decide (data = ∅) then Raise TypeError else Ret ()).
Proof.
  intros Ht Hx Hno. split.
  - destruct (update_record_disk rid data tbl col w) as (_ & _ & Hd).
    destruct Hd as [Hd|(x' & Hx' & Hd)]; [done|].
    simplify_eq. unfold update_where in Hd. rewrite Ht in Hd. cbn in Hd.
    case_decide; [done|]. injection Hd as <-.
    fold (updated_rows coerced_eq tbl (stored <$> data) col x t).
    rewrite updated_rows_none by done. by apply with_table_same.
  - intros Hf. by apply (update_record_result rid x data tbl col w t).
Qed.

(** X4: Whatever happens, [update_record] keeps the rows of the table in place:
    their number is the same, a row that the key does not select is
    unchanged, and in every row a column that is not among the supplied
    ones keeps its value. *)
Theorem update_record_frame rid x data tbl col w t :
  table_of tbl (disk w) = Some t →
  bind_param rid = Some x →
  ∃ t',
    table_of tbl (disk (run (update_record coerced_eq rid data tbl col) w)) = Some t' ∧
    length t' = length t ∧
    ∀ i r, t !! i = Some r →
      ∃ r', t' !! i = Some r' ∧
            (matches coerced_eq tbl col x r = false → r' = r) ∧
            (∀ c, data !! c = None → r' !! c = r !! c).
Proof.
  intros Ht Hx.
  destruct (update_record_disk rid data tbl col w) as (_ & _ & [Hd|(x' & Hx' & Hd)]).
  - exists t. rewrite Hd. split; [done|]. split; [done|]. intros i r Hi. by exists r.
  - simplify_eq. unfold update_where in Hd. rewrite Ht in Hd. cbn in Hd.
    case_decide; [done|]. injection Hd as Hd. rewrite <- Hd.
    fold (updated_rows coerced_eq tbl (stored <$> data) col x t).
    exists (updated_rows coerced_eq tbl (stored <$> data) col x t).
    split; [apply table_of_with_table|]. split; [apply length_map|].
    intros i r Hi. unfold updated_rows. change (map ?f t) with (f <$> t).
    rewrite list_lookup_fmap, Hi. cbn.
    destruct (matches coerced_eq tbl col x r); eexists; (split; [done|]); split;
      try done.
    intros c Hc. by rewrite lookup_union_r by (by rewrite lookup_fmap, Hc).
Qed.

(** ** More on the link functions *)

Lemma link_bot_to_knowledgebase_spec_any v x (ks : list Z) w :
  bind_param v = Some x →
  wp (link_bot_to_knowledgebase coerced_eq v (PyInt <$> ks))
     (λ _ w', conn w' = None ∧ cache w' = cache w ∧
              (disk w' = disk w ∨
               disk w' = linked coerced_eq x (VInt <$> ks) (disk w)) ∧
              (faults w = [] →
               disk w' = linked coerced_eq x (VInt <$> ks) (disk w) ∧
               faults w' = []))
     (λ e w', conn w' = None ∧ cache w' = cache w ∧ disk w' = disk w ∧
              is_sqlite3_Error e = false ∧ faults w ≠ [])
     w.
Proof.
  intros Hx.
  unfold link_bot_to_knowledgebase, execute_insert_link, execute_select_link.
  rewrite for_each_fmap. wp_run.
  apply (wp_for_each _
    (λ seen w', disk w' = disk w ∧ cache w' = cache w ∧
                (∃ p, conn w' = Some p ∧
                      default (disk w) p
                      = linked coerced_eq x (VInt <$> seen) (disk w)) ∧
                (faults w = [] → faults w' = [])) _ _ ks []).
  - cbn. repeat split; eauto.
  - intros seen k w' (Hd & Hc & (p & Hconn & Hp) & Hf).
    replace (VInt <$> seen ++ [k]) with ((VInt <$> seen) ++ [VInt k])
      by (by rewrite fmap_app).
    rewrite linked_snoc.
    wp_run; rewrite ?Hd, ?Hp in *; cbn; simplify_eq.
    all: try congruence.
    all: repeat match goal with
         | H1 : bind_param ?a = Some ?y, H2 : bind_param ?a = Some ?z |- _ =>
             assert (z = y) as -> by congruence; clear H2
         end.
    all: try (unfold select_link, insert_into in *; cbn in *; simplify_eq; fail).
    all: repeat split; eauto.
    all: try (intros; no_fault; eauto; fail).
    + eexists; split; [done|]. cbn.
      apply link_one_absent in Heqo. congruence.
    + eexists; split; [done|]. cbn. by erewrite link_one_present.
  - cbn. intros w' (Hd & Hc & (p & Hconn & Hp) & Hf).
    wp_run; rewrite ?Hd, ?Hp in *; cbn; simplify_eq.
    all: repeat split; eauto.
    all: try (intros; no_fault; eauto; fail).
Qed.




Lemma linked_null ks : ∀ d,
  linked coerced_eq VNull (VInt <$> ks) d
  = with_table "BotKnowledgeLink"
      (BotKnowledgeLink d ++ map (λ k, link_row VNull (VInt k)) ks) d.
Proof.
  induction ks as [|k ks IH]; intros d.
  - cbn. rewrite app_nil_r. by destruct d.
  - rewrite fmap_cons, linked_cons, IH. unfold link_one, select_link.
    rewrite (filter_none _ (BotKnowledgeLink d)).
    + cbn. by rewrite <- app_assoc.
    + apply Forall_forall. intros r _. unfold matches, sql_eq.
      by destruct (column r "Bot_ID").
Qed.

(** X6: With [None] as bot id, which is what [add_bot_and_get_id] returns after
    a failed insertion, the test for an existing link never finds one
    (NULL is equal to nothing): when no statement fails the function
    appends one row with a NULL [Bot_ID] per given key, repeated keys and
    repeated calls included. *)
Theorem link_bot_to_knowledgebase_None ks w :
  faults w = [] →
  BotKnowledgeLink
    (disk (run (link_bot_to_knowledgebase coerced_eq PyNone (PyInt <$> ks)) w))
  = BotKnowledgeLink (disk w) ++ map (λ k, link_row VNull (VInt k)) ks.
Proof.
  intros Hf.
  apply (wp_run_any _ (λ w', BotKnowledgeLink (disk w') = _)).
  eapply wp_mono;
    [apply (link_bot_to_knowledgebase_spec_any PyNone VNull ks w eq_refl) | |]; cbn.
  - intros _ w' (_ & _ & _ & H). destruct (H Hf) as [-> _]. by rewrite linked_null.
  - intros _ w' (_ & _ & _ & _ & H). done.
Qed.

(** *** At most one row per pair *)

Lemma links_between_link_one_other b b' k k' d :
  b' ≠ b →
  links_between coerced_eq b' k' (link_one coerced_eq (VInt b) d (VInt k))
  = links_between coerced_eq b' k' d.
Proof.
  intros Hne. unfold link_one.
  destruct (select_link coerced_eq (VInt b) (VInt k) d) as [[|r rs]|]; [|done..].
  unfold links_between. cbn. rewrite List.filter_app. cbn.
  rewrite matches_link_row_bot.
  assert (Z.eqb b b' = false) as -> by (apply Z.eqb_neq; congruence).
  cbn. by rewrite app_nil_r.
Qed.

Lemma links_between_linked_other b b' ks k' : ∀ d,
  b' ≠ b →
  links_between coerced_eq b' k' (linked coerced_eq (VInt b) (VInt <$> ks) d)
  = links_between coerced_eq b' k' d.
Proof.
  induction ks as [|k ks IH]; intros d Hne; [done|].
  by rewrite fmap_cons, linked_cons, IH, links_between_link_one_other.
Qed.

Lemma unique_links_linked b ks d :
  unique_links coerced_eq d →
  unique_links coerced_eq (linked coerced_eq (VInt b) (VInt <$> ks) d).
Proof.
  intros Hu b' k'. destruct (decide (b' = b)) as [->|Hne].
  - rewrite linked_count. specialize (Hu b k'). case_bool_decide; lia.
  - rewrite links_between_linked_other by done. apply Hu.
Qed.

Lemma filter_filter_length {A} (p q : A → bool) (l : list A) :
  (length (List.filter p (List.filter q l)) ≤ length (List.filter p l))%nat.
Proof.
  induction l as [|x l IH]; cbn; [done|].
  destruct (q x), (p x) eqn:Hp; cbn; rewrite ?Hp; cbn; lia.
Qed.

Lemma filter_eqb_NoDup (k : Z) (ks : list Z) :
  NoDup ks → (length (List.filter (λ k', Z.eqb k' k) ks) ≤ 1)%nat.
Proof.
  induction 1 as [|k0 ks Hk0 _ IH]; cbn; [lia|].
  destruct (Z.eqb k0 k) eqn:Hk; [|done].
  apply Z.eqb_eq in Hk as ->. cbn.
  rewrite (filter_none _ ks); [done|].
  apply Forall_forall. intros k' Hk'. apply Z.eqb_neq. by intros ->.
Qed.

Lemma links_between_new_rows b b' k' ks :
  List.filter (λ r, matches coerced_eq "BotKnowledgeLink" "Bot_ID" (VInt b') r
                    && matches coerced_eq "BotKnowledgeLink" "KnowledgeBase_ID" (VInt k') r)
              (map (λ k, link_row (VInt b) (VInt k)) ks)
  = map (λ k, link_row (VInt b) (VInt k))
        (List.filter (λ k, Z.eqb b b' && Z.eqb k k') ks).
Proof.
  induction ks as [|k ks IH]; cbn; [done|].
  rewrite matches_link_row_bot, matches_link_row_kb, IH.
  by destruct (Z.eqb b b' && Z.eqb k k').
Qed.

Lemma unique_links_replaced b ks d :
  NoDup ks →
  unique_links coerced_eq d →
  unique_links coerced_eq (replaced coerced_eq b ks d).
Proof.
  intros Hks Hu b' k'. unfold links_between, replaced. cbn.
  rewrite List.filter_app, length_app, links_between_new_rows, length_map.
  destruct (decide (b' = b)) as [->|Hne].
  - rewrite (filter_none _ (List.filter _ _)).
    + cbn. rewrite Z.eqb_refl. cbn. by apply filter_eqb_NoDup.
    + apply Forall_forall. intros r [_ Hr]%list_elem_of_In%filter_In.
      apply negb_true_iff in Hr. by rewrite Hr.
  - assert (Z.eqb b b' = false) as -> by (apply Z.eqb_neq; congruence).
    cbn. rewrite (filter_none _ ks) by (by apply Forall_forall). cbn.
    rewrite Nat.add_0_r. etrans; [apply filter_filter_length|]. apply (Hu b' k').
Qed.

(** X7: The link functions keep the join table free of duplicate pairs,
    whatever fails: [link_bot_to_knowledgebase] always, and
    [update_bot_knowledge_links] when the list of keys has no repetition
    (it inserts one row per element of the list, without testing). *)
Theorem link_functions_keep_pairs_unique w :
  unique_links coerced_eq (disk w) →
  (∀ b ks,
     unique_links coerced_eq
       (disk (run (link_bot_to_knowledgebase coerced_eq (PyInt b) (PyInt <$> ks)) w))) ∧
  (∀ b ks, NoDup ks →
     unique_links coerced_eq (disk (run (update_bot_knowledge_links coerced_eq b ks) w))).
Proof.
  intros Hu. split.
  - intros b ks. apply (wp_run_any _ (λ w', unique_links coerced_eq (disk w'))).
    eapply wp_mono; [apply link_bot_to_knowledgebase_spec | |]; cbn.
    + intros _ w' (_ & _ & [-> | ->] & _); [done|]. by apply unique_links_linked.
    + by intros _ w' (_ & _ & -> & _).
  - intros b ks Hks.
    pose proof (update_bot_knowledge_links_disk b ks w) as H. cbn in H.
    destruct (result _ w); rewrite H; [|done]. by apply unique_links_replaced.
Qed.

(** ** Reading the links back *)






(** ** Adding a bot *)




Lemma bind_all_PyStr (texts : gmap string string) :
  bind_all (PyStr <$> texts) = Some (VText <$> texts).
Proof.
  unfold bind_all. rewrite decide_True.
  - f_equal. apply map_eq. intros k.
    rewrite lookup_omap, !lookup_fmap. by destruct (texts !! k).
  - intros k v. rewrite lookup_fmap. destruct (texts !! k); cbn; [|done].
    intros [= <-]. cbn. eauto.
Qed.

(** A statement whose failure is the next entry of the plan. *)
Lemma wp_fault_point_raise (Q : unit → world → Prop) E w e fs :
  faults w = Some e :: fs → E e (set_faults fs w) → wp fault_point Q E w.
Proof. intros Hf HE. unfold wp, fault_point. by rewrite Hf. Qed.

Ltac wp_to_fault :=
  repeat lazymatch goal with
         | |- wp fault_point _ _ _ => fail
         | |- _ => wp_step
         end.

(** The insertion is the first statement: when it fails with a sqlite
    error the function shows the error and answers [None]. *)
Lemma add_bot_and_get_id_first_fault data r e fs w :
  faults w = Some e :: fs →
  is_sqlite3_Error e = true →
  bind_all data = Some r →
  result (add_bot_and_get_id data) w = Ret None ∧
  disk (run (add_bot_and_get_id data) w) = disk w ∧
  faults (run (add_bot_and_get_id data) w) = fs.
Proof.
  intros Hf He Hr.
  pose proof (wp_run_result (add_bot_and_get_id data)
    (λ r' w', r' = None ∧ disk w' = disk w ∧ faults w' = fs) (λ _ _, False) w) as H.
  destruct (result _ w) as [r'|e']; [destruct H as (-> & ? & ?); [|done]|destruct H].
  all: unfold add_bot_and_get_id; wp_to_fault; try congruence.
  all: (eapply wp_fault_point_raise; [cbn; eassumption|]); cbn; rewrite He; by wp_run.
Qed.

Lemma link_bot_to_knowledgebase_None_no_fault ks w :
  faults w = [] →
  result (link_bot_to_knowledgebase coerced_eq PyNone (PyInt <$> ks)) w = Ret () ∧
  disk (run (link_bot_to_knowledgebase coerced_eq PyNone (PyInt <$> ks)) w)
  = with_table "BotKnowledgeLink"
      (BotKnowledgeLink (disk w) ++ map (λ k, link_row VNull (VInt k)) ks) (disk w).
Proof.
  intros Hf.
  pose proof (wp_run_result _ _ _ _
                (link_bot_to_knowledgebase_spec_any PyNone VNull ks w eq_refl)) as H.
  destruct (result _ w) as [[]|e].
  - destruct H as (_ & _ & _ & H). destruct (H Hf) as [-> _]. by rewrite linked_null.
  - by destruct H as (_ & _ & _ & _ & H).
Qed.

(** X11: The "Add Record" form on [Bots] does not look at what
    [add_bot_and_get_id] answers.  When the insertion of the bot is
    rejected with a sqlite error and knowledge entries were selected, the
    handler goes on to the end: no bot is added, and one link row with a
    NULL [Bot_ID] is added per selected entry. *)
Theorem add_bot_submit_links_after_failed_insert new_data k ks e w :
  faults w = [Some e] →
  is_sqlite3_Error e = true →
  let m := add_bot_submit coerced_eq new_data (k :: ks) in
  result m w = Ret () ∧
  Bots (disk (run m w)) = Bots (disk w) ∧
  BotKnowledgeLink (disk (run m w))
  = BotKnowledgeLink (disk w) ++ map (λ k', link_row VNull (VInt k')) (k :: ks).
Proof.
  intros Hf He m.
  destruct (add_bot_and_get_id_first_fault (PyStr <$> new_data) _ e [] w Hf He
              (bind_all_PyStr new_data)) as (Hr & Hd & Hf').
  subst m. unfold add_bot_submit.
  unfold result, run, mbind, M_bind in *.
  destruct (add_bot_and_get_id (PyStr <$> new_data) w) as [r w1]. cbn in Hr, Hd, Hf'.
  subst r. cbn.
  set (w2 := set_shown _ w1).
  assert (faults w2 = []) as Hf2 by done.
  destruct (link_bot_to_knowledgebase_None_no_fault (k :: ks) w2 Hf2) as [Hr2 Hd2].
  unfold result, run in Hr2, Hd2.
  change (PyInt k :: (PyInt <$> ks)) with (PyInt <$> k :: ks).
  destruct (link_bot_to_knowledgebase coerced_eq PyNone (PyInt <$> k :: ks) w2)
    as [r3 w3]. cbn in Hr2, Hd2. subst r3. cbn. rewrite Hd2. cbn.
  by rewrite Hd.
Qed.

(** ** The "Update Record" form as a whole *)

Lemma BotKnowledgeLink_with_table tbl t d :
  tbl ≠ "BotKnowledgeLink" →
  BotKnowledgeLink (with_table tbl t d) = BotKnowledgeLink d.
Proof.
  intros Hne. unfold with_table.
  destruct (String.eqb tbl "Bots"); [done|].
  destruct (String.eqb tbl "KnowledgeBase"); [done|].
  by apply String.eqb_neq in Hne as ->.
Qed.

Lemma update_record_keeps_links rid data tbl col w :
  tbl ≠ "BotKnowledgeLink" →
  BotKnowledgeLink (disk (run (update_record coerced_eq rid data tbl col) w))
  = BotKnowledgeLink (disk w).
Proof.
  intros Hne.
  destruct (update_record_disk rid data tbl col w) as (_ & _ & [->|(x & _ & Hd)]);
    [done|].
  unfold update_where in Hd. destruct (table_of tbl (disk w)); cbn in Hd; [|done].
  case_decide; [done|]. injection Hd as <-. by apply BotKnowledgeLink_with_table.
Qed.

(** A statement that the store accepts, the plan going on. *)
Lemma wp_fault_point_pass (Q : unit → world → Prop) E w fs :
  faults w = None :: fs → Q () (set_faults fs w) → wp fault_point Q E w.
Proof. intros Hf HQ. unfold wp, fault_point. by rewrite Hf. Qed.

(** The UPDATE and its commit are the two statements of [update_record]. *)
Lemma update_record_committed rid x data tbl col d' fs w :
  faults w = None :: None :: fs →
  bind_param rid = Some x →
  update_where coerced_eq tbl (stored <$> data) col x (disk w) = Some d' →
  result (update_record coerced_eq rid data tbl col) w = Ret () ∧
  disk (run (update_record coerced_eq rid data tbl col) w) = d' ∧
  faults (run (update_record coerced_eq rid data tbl col) w) = fs ∧
  shown (run (update_record coerced_eq rid data tbl col) w) = shown w.
Proof.
  intros Hf Hx Hu.
  pose proof (wp_run_result (update_record coerced_eq rid data tbl col)
    (λ _ w', disk w' = d' ∧ faults w' = fs ∧ shown w' = shown w) (λ _ _, False) w) as H.
  destruct (result _ w) as [[]|e']; [split; [done|apply H]|destruct H].
  all: unfold update_record, execute_update, bound_all; cbv zeta;
    rewrite bind_all_processed.
  all: wp_to_fault; try congruence.
  all: (eapply wp_fault_point_pass; [cbn; eassumption|]); cbn.
  all: wp_to_fault; try congruence.
  all: (eapply wp_fault_point_pass; [cbn; reflexivity|]); cbn.
  all: wp_run; cbn; by simplify_eq.
Qed.

(** The DELETE is the first statement of [update_bot_knowledge_links]. *)
Lemma update_bot_knowledge_links_first_fault b ks e fs w :
  faults w = Some e :: fs →
  result (update_bot_knowledge_links coerced_eq b ks) w = Raise e ∧
  disk (run (update_bot_knowledge_links coerced_eq b ks) w) = disk w ∧
  shown (run (update_bot_knowledge_links coerced_eq b ks) w) = shown w.
Proof.
  intros Hf.
  pose proof (wp_run_result (update_bot_knowledge_links coerced_eq b ks)
    (λ _ _, False) (λ e' w', e' = e ∧ disk w' = disk w ∧ shown w' = shown w) w) as H.
  destruct (result _ w) as [[]|e']; [destruct H | destruct H as (-> & ? & ?); [|done]].
  all: unfold update_bot_knowledge_links; wp_to_fault; try congruence.
  all: (eapply wp_fault_point_raise; [cbn; eassumption|]); cbn.
  all: done.
Qed.

(** X13: The row and its links are written by two operations, each with its
    own transaction.  When the UPDATE of the row is committed and the
    replacement of the links is then rejected at its first statement, the
    exception leaves the handler of the form: the row has its new values,
    the join table is as it was, and nothing is shown, neither an error
    nor the message of success. *)
Theorem update_record_form_not_atomic rid fields tbl b ks e d' w :
  faults w = [None; None; Some e] →
  b ≠ 0 →
  tbl ≠ "BotKnowledgeLink" →
  update_where coerced_eq tbl (form_stored <$> fields) (identifier_column_of tbl)
               (VText rid) (disk w) = Some d' →
  let m := update_record_form coerced_eq rid fields tbl (Some b) ks in
  result m w = Raise e ∧
  disk (run m w) = d' ∧
  BotKnowledgeLink (disk (run m w)) = BotKnowledgeLink (disk w) ∧
  shown (run m w) = shown w.
Proof.
  intros Hf Hb Hne Hu m.
  rewrite <- stored_form_data in Hu.
  destruct (update_record_committed (PyStr rid) (VText rid) (form_data fields) tbl
              (identifier_column_of tbl) d' [Some e] w Hf eq_refl Hu)
    as (Hr & Hd & Hf' & Hs).
  pose proof (update_record_keeps_links (PyStr rid) (form_data fields) tbl
                (identifier_column_of tbl) w Hne) as Hl.
  rewrite Hd in Hl.
  subst m. unfold update_record_form. apply Z.eqb_neq in Hb as ->.
  unfold result, run, mbind, M_bind in *.
  destruct (update_record coerced_eq (PyStr rid) (form_data fields) tbl
              (identifier_column_of tbl) w) as [r w1]. cbn in Hr, Hd, Hf', Hs. subst r.
  destruct (update_bot_knowledge_links_first_fault b ks e [] w1 Hf') as (Hr2 & Hd2 & Hs2).
  unfold result, run in Hr2, Hd2, Hs2.
  destruct (update_bot_knowledge_links coerced_eq b ks w1) as [r2 w2].
  cbn in Hr2, Hd2, Hs2. subst r2. cbn.
  rewrite Hd2, Hs2, Hd. done.
Qed.


(** ** Failures of the store in the functions that report with two arguments *)

Lemma wp_raises {A} (m : M A) (P : world → Prop) e w :
  wp m (λ _ _, False) (λ e' w', e' = e ∧ P w') w →
  result m w = Raise e ∧ P (run m w).
Proof.
  unfold wp, result, run. destruct (m w) as [[a|e'] w']; cbn; [done|]. by intros [-> ?].
Qed.

(** X19: When the store rejects the first statement of [add_record], of
    [delete_record] or of [update_record], whatever the error, the handler
    is entered and its report, [st.error(msg, e)], is rejected: the
    function raises [TypeError] and shows nothing; the store is as before
    and the connection is closed. *)
Theorem store_failure_is_not_reported e fs w :
  faults w = Some e :: fs →
  let unreported (m : M unit) :=
    result m w = Raise TypeError ∧ disk (run m w) = disk w ∧
    shown (run m w) = shown w ∧ conn (run m w) = None in
  (∀ data tbl, unreported (add_record data tbl)) ∧
  (∀ v tbl col, unreported (delete_record coerced_eq v tbl col)) ∧
  (∀ v data tbl col, unreported (update_record coerced_eq v data tbl col)).
Proof.
  intros Hf unreported. split; [|split]; intros; subst unreported; cbv beta.
  - apply (wp_raises _ (λ w', disk w' = disk w ∧ shown w' = shown w ∧ conn w' = None)).
    unfold add_record. wp_to_fault.
    eapply wp_fault_point_raise; [cbn; eassumption|]; cbn.
    by destruct e; wp_run.
  - apply (wp_raises _ (λ w', disk w' = disk w ∧ shown w' = shown w ∧ conn w' = None)).
    unfold delete_record. wp_to_fault.
    eapply wp_fault_point_raise; [cbn; eassumption|]; cbn.
    by destruct e; wp_run.
  - apply (wp_raises _ (λ w', disk w' = disk w ∧ shown w' = shown w ∧ conn w' = None)).
    unfold update_record, execute_update, bound_all. cbv zeta.
    rewrite bind_all_processed. wp_to_fault; try done.
    all: eapply wp_fault_point_raise; [cbn; eassumption|]; cbn.
    all: by destruct e; wp_run.
Qed.

(** ** Reading tables *)

(** X14: A second read of the same table is served from the cache: it returns
    the dataframe of the first read and touches neither the store, nor a
    connection, nor the cache. *)
Theorem load_data_twice tbl w df :
  result (load_data tbl) w = Ret df →
  load_data tbl (run (load_data tbl) w) = (Ret df, run (load_data tbl) w).
Proof.
  intros Hr.
  pose proof (wp_run_result _ _ _ _ (load_data_spec tbl w)) as H. rewrite Hr in H.
  destruct H as [_ H].
  assert (cache (run (load_data tbl) w) !! tbl = Some df) as Hc.
  { destruct (cache w !! tbl) as [df'|] eqn:Hhit.
    - destruct H as [-> ->]. done.
    - destruct H as (_ & _ & ->). apply lookup_insert_eq. }
  unfold load_data at 1. unfold mbind, M_bind, get_world. by rewrite Hc.
Qed.






End Specs.

(** ** The columns of the view *)

Lemma filter_other_columns required (l : list string) :
  required ∉ l →
  List.filter (λ col, negb (String.eqb col required)) l = l.
Proof.
  intros Hn. apply filter_all, Forall_forall. intros c Hc.
  apply negb_true_iff, String.eqb_neq. by intros ->.
Qed.

(** X18: The default selection of the view shows every column of the table
    once, the required column first and the others in their order: when
    the column labels are distinct and the required column is one of them,
    it is a permutation of the columns, and the selection is accepted as
    it is, without the warning. *)
Theorem default_columns_all required columns :
  NoDup columns →
  required ∈ columns →
  default_columns required columns ≡ₚ columns ∧
  NoDup (default_columns required columns) ∧
  columns_to_show required (default_columns required columns)
  = (default_columns required columns, false).
Proof.
  intros Hnd Hin.
  apply list_elem_of_split in Hin as (l1 & l2 & ->).
  apply NoDup_app in Hnd as (Hl1 & Hdisj & Hl2).
  apply NoDup_cons in Hl2 as (Hn2 & Hl2).
  assert (required ∉ l1) as Hn1.
  { intros H1. apply (Hdisj _ H1). apply list_elem_of_here. }
  assert (default_columns required (l1 ++ required :: l2) = required :: l1 ++ l2) as Hdef.
  { unfold default_columns. rewrite List.filter_app. cbn.
    rewrite String.eqb_refl. cbn. by rewrite !filter_other_columns. }
  rewrite Hdef. split; [|split].
  - apply Permutation_middle.
  - apply NoDup_cons. split.
    + rewrite elem_of_app. tauto.
    + apply NoDup_app. split; [done|]. split; [|done].
      intros c Hc1 Hc2. apply (Hdisj c Hc1). by apply list_elem_of_further.
  - unfold columns_to_show. rewrite bool_decide_eq_true_2; [done|]. apply list_elem_of_here.
Qed.

(** Whatever the user selects, the required column is among the columns
    shown and the rest of the selection is as selected; the warning is
    shown exactly when the required column had been removed, and a
    selection that was put right is then accepted as it is. *)
Theorem columns_to_show_required required selected :
  let shown := (columns_to_show required selected).1 in
  required ∈ shown ∧
  List.filter (λ col, negb (String.eqb col required)) shown
  = List.filter (λ col, negb (String.eqb col required)) selected ∧
  ((columns_to_show required selected).2 = true ↔ required ∉ selected) ∧
  columns_to_show required shown = (shown, false).
Proof.
  unfold columns_to_show. case_bool_decide as Hin; cbn.
  - rewrite bool_decide_eq_true_2 by done. by repeat split.
  - rewrite bool_decide_eq_true_2 by apply list_elem_of_here.
    rewrite String.eqb_refl. cbn. repeat split; try done; apply list_elem_of_here.
Qed.

(** ** The operations on sample stores *)

(** The examples of the specification. *)
Example link_twice_the_same_key :
  BotKnowledgeLink
    (disk (run (link_bot_to_knowledgebase no_coercion (PyInt 2) [PyInt 5; PyInt 5])
               (idle aida_db [])))
  = [link_row (VInt 1) (VInt 5); link_row (VInt 2) (VInt 5)].
Proof. cbv zeta. compute_done. Qed.

Example replace_k1_by_k2 :
  BotKnowledgeLink
    (disk (run (update_bot_knowledge_links no_coercion 1 [6]) (idle aida_db [])))
  = [link_row (VInt 1) (VInt 6)].
Proof. cbv zeta. compute_done. Qed.

Example insert_link_delete_by_key :
  let ops := [AddBot {["Botperson_Name" := PyStr "Bo"]};
              LinkBot (PyInt 2) [PyInt 5; PyInt 6];
              DeleteRecord (PyInt 2) "Bots" "Bot_ID"] in
  let d := disk (perform_all no_coercion ops (idle aida_db [])) in
  links_of no_coercion 2 d = [] ∧ bot_keys d = [1].
Proof. cbv zeta. compute_done. Qed.

(** [update_record] called directly does not touch an empty string: the
    empty string is turned into [None] by the form, before the call. *)
Example update_record_keeps_empty_string :
  (λ r, column r "Role") <$>
    Bots (disk (run (update_record no_coercion (PyInt 1) {["Role" := PyStr EmptyString]}
                                   "Bots" "Bot_ID") (idle aida_db [])))
  = [VText EmptyString].
Proof. cbv zeta. compute_done. Qed.

(** C1: the "Delete Record" button identifies a bot by [Botperson_Name] and
    hands that name to [delete_record], which compares it with [Bot_ID] in
    the join table.  Whatever the store answers, the link of the bot
    "Aida" (key 1) is still there afterwards; when nothing fails the bot
    row is gone and its link dangles. *)
Theorem delete_record_form_keeps_links :
  (∀ plan,
     BotKnowledgeLink
       (disk (run (delete_record_form no_coercion "Aida" "Bots") (idle aida_db plan)))
     = [link_row (VInt 1) (VInt 5)]) ∧
  Bots (disk (run (delete_record_form no_coercion "Aida" "Bots") (idle aida_db []))) = [] ∧
  no_dangling (disk (run (delete_record_form no_coercion "Aida" "Bots") (idle aida_db [])))
  = false.
Proof.
  split; [|compute_done].
  intros plan. rewrite delete_record_form_disk by reflexivity.
  change (delete_column_of "Bots") with "Botperson_Name".
  destruct (delete_record_all_or_nothing no_coercion (PyStr "Aida") "Bots"
              "Botperson_Name" (idle aida_db plan)) as [->|(x & [= <-] & H)]; [done|].
  remember (disk (run _ _)) as d' eqn:Hd'. clear Hd'.
  vm_compute in H. injection H as <-. compute_done.
Qed.

(** C2, on the sample store: the second insertion fails. *)
Lemma update_links_failure_leaves_links_witness :
  let w := idle aida_db [None; None; Some IntegrityError] in
  result (update_bot_knowledge_links no_coercion 1 [6; 5]) w = Raise IntegrityError ∧
  disk (run (update_bot_knowledge_links no_coercion 1 [6; 5]) w) = disk w ∧
  links_of no_coercion 1 (disk (run (update_bot_knowledge_links no_coercion 1 [6; 5]) w))
  = links_of no_coercion 1 (disk w).
Proof.
  intros w. split; [compute_done|].
  apply (update_links_failure_leaves_links no_coercion 1 [6; 5] w IntegrityError).
  compute_done.
Defined.

(** C3, on the sample store, with a key given twice. *)
Lemma link_bot_to_knowledgebase_idempotent_witness :
  let w := idle aida_db [] in
  let link := link_bot_to_knowledgebase no_coercion (PyInt 1) (PyInt <$> [6; 6; 5]) in
  (∀ k, k ∈ [6; 6; 5] →
     length (links_between no_coercion 1 k (disk (run link w)))
     = Nat.max 1 (length (links_between no_coercion 1 k (disk w)))) ∧
  disk (run link (run link w)) = disk (run link w).
Proof.
  intros w. apply (link_bot_to_knowledgebase_idempotent no_coercion 1 [6; 6; 5] w).
  reflexivity.
Defined.



(** What the amended C4 leaves out, on the sample store: a table or a
    column under another spelling, which sqlite resolves and the tests of
    the Python code do not; the deletion of a linked bot by its name (C1);
    an update that sets the key; a link to a key that does not exist. *)
Example operations_left_out :
  keeps_parents integer_keys aida_db (DeleteRecord (PyInt 1) "bots" "Bot_ID") = false ∧
  keeps_parents integer_keys aida_db (DeleteRecord (PyStr "1") "Bots" "bot_id") = false ∧
  keeps_parents integer_keys aida_db (DeleteRecord (PyStr "1") "Bots" "rowid") = false ∧
  keeps_parents integer_keys aida_db (DeleteRecord (PyStr "Aida") "Bots" "Botperson_Name")
  = false ∧
  keeps_parents integer_keys aida_db
    (UpdateRecord (PyInt 1) {["bot_id" := PyInt 2]} "Bots" "Bot_ID") = false ∧
  keeps_parents integer_keys aida_db (LinkBot (PyInt 1) [PyInt 7]) = false.
Proof. cbv zeta. compute_done. Qed.

(** What it admits: the deletions of the page that select the links of
    the rows they delete, by the text of the key or, with no coercion, by
    the integer key. *)
Example operations_admitted :
  keeps_parents integer_keys aida_db (DeleteRecord (PyStr "1") "Bots" "Bot_ID") = true ∧
  keeps_parents integer_keys aida_db (DeleteRecord (PyStr "5") "KnowledgeBase" "ID") = true ∧
  keeps_parents no_coercion aida_db (DeleteRecord (PyInt 1) "Bots" "Bot_ID") = true ∧
  keeps_parents no_coercion aida_db (DeleteRecord (PyStr "Zed") "Bots" "Botperson_Name")
  = true.
Proof. cbv zeta. compute_done. Qed.

(** C5, on the sample store: the links [k1 = 5] of bot 1 replaced by
    [k2 = 6]. *)
Lemma update_links_success_exact_witness :
  let w := idle aida_db [] in
  links_of no_coercion 1 (disk w) = [link_row (VInt 1) (VInt 5)] ∧
  links_of no_coercion 1 (disk (run (update_bot_knowledge_links no_coercion 1 [6]) w))
  = map (λ k, link_row (VInt 1) (VInt k)) [6].
Proof.
  intros w. split; [compute_done|].
  apply (update_links_success_exact no_coercion 1 [6] w). compute_done.
Defined.

(** C6 as stated fails: the text ["None"] typed in a field of the form is
    not stored as given, the column holds NULL. *)
Lemma update_form_None_text_is_not_stored :
  (λ r, column r "Role") <$>
    Bots (disk (run (update_record_form no_coercion "Aida"
                       {["Role" := "None"]} "Bots" (Some 1) [5])
                    (idle aida_db [])))
  = [VNull].
Proof. cbv zeta. compute_done. Qed.

(** C6 as amended, on the sample store. *)
Lemma update_record_form_stores_witness :
  ∃ t' r',
    table_of "Bots"
      (disk (run (update_record_form no_coercion "Aida" typed_fields "Bots" (Some 1) [5])
                 (idle aida_db [])))
    = Some t' ∧
    t' !! 0%nat = Some r' ∧
    ∀ k s, typed_fields !! k = Some s → r' !! k = Some (form_stored s).
Proof.
  apply (update_record_form_stores no_coercion "Aida" typed_fields "Bots" (Some 1) [5]
           (idle aida_db []) [bot_row 1 "Aida"] 0 (bot_row 1 "Aida"));
    [reflexivity | discriminate | compute_done | compute_done
    | compute_done].
Defined.

(** C7: [delete_record] returns without clearing the cache, so the read
    that follows a deletion still shows the deleted row. *)
Theorem delete_record_leaves_stale_cache :
  let w1 := run (load_data "Bots") (idle aida_db []) in
  let w2 := run (delete_record no_coercion (PyInt 1) "Bots" "Bot_ID") w1 in
  Bots (disk w2) = [] ∧
  result (load_data "Bots") w2 = Ret [bot_row 1 "Aida"].
Proof. cbv zeta. compute_done. Qed.

(** C8: in [update_bot_knowledge_links] a failure of the second insertion
    leaves the function as an exception: nothing is reported, nothing is
    rolled back and the connection is still open, with its transaction
    pending, when the next operation connects. *)
Theorem update_links_failure_escapes :
  let w := idle aida_db [None; None; Some OperationalError] in
  let m := update_bot_knowledge_links no_coercion 1 [6; 5] in
  result m w = Raise OperationalError ∧
  shown (run m w) = [] ∧
  conn (run m w)
  = Some (Some (mkDb [bot_row 1 "Aida"] [kb_row 5 "doc5"; kb_row 6 "doc6"]
                     [link_row (VInt 1) (VInt 6)] ∅)) ∧
  leaked (run (load_data "Bots") (run m w)) = 1%nat.
Proof. cbv zeta. compute_done. Qed.

(** C9, on the sample store. *)
Lemma update_record_None_is_null_witness :
  ∃ t' r',
    table_of "Bots"
      (disk (run (update_record no_coercion (PyInt 1) missing_data "Bots" "Bot_ID")
                 (idle aida_db [])))
    = Some t' ∧
    t' !! 0%nat = Some r' ∧
    ∀ k v, missing_data !! k = Some v → is_missing v = true → r' !! k = Some VNull.
Proof.
  apply (update_record_None_is_null no_coercion (PyInt 1) missing_data "Bots" "Bot_ID"
           (idle aida_db []) [bot_row 1 "Aida"] (VInt 1) 0 (bot_row 1 "Aida"));
    compute_done.
Defined.

(** ** The further properties on sample stores *)

(** Deleting by integer key, on a store where key 5 is a bot, a knowledge
    entry and linked both ways. *)
Lemma delete_record_by_key_cascades_witness :
  let w := idle (mkDb [bot_row 5 "Aida"; bot_row 6 "Bo"] [kb_row 5 "doc5"]
                      [link_row (VInt 5) (VInt 5); link_row (VInt 6) (VInt 5)] ∅) [] in
  (let d' := disk (run (delete_record no_coercion (PyInt 5) "Bots" "Bot_ID") w) in
   links_of no_coercion 5 d' = [] ∧ 5 ∉ bot_keys d') ∧
  (let d' := disk (run (delete_record no_coercion (PyInt 5) "KnowledgeBase" "ID") w) in
   List.filter (matches no_coercion "BotKnowledgeLink" "KnowledgeBase_ID" (VInt 5))
               (BotKnowledgeLink d') = [] ∧
   5 ∉ kb_keys d').
Proof.
  intros w. apply (delete_record_by_key_cascades no_coercion 5 w). reflexivity.
Defined.

(** An update of bot 9, which the sample store does not hold: with columns
    supplied, and with none. *)
Lemma update_record_no_match_witness :
  let w := idle aida_db [] in
  let m := update_record no_coercion (PyInt 9) missing_data "Bots" "Bot_ID" in
  let m0 := update_record no_coercion (PyInt 9) ∅ "Bots" "Bot_ID" in
  (disk (run m w) = disk w ∧ result m w = Ret ()) ∧
  (disk (run m0 w) = disk w ∧ result m0 w = Raise TypeError).
Proof.
  intros w m m0. split.
  - destruct (update_record_no_match no_coercion (PyInt 9) (VInt 9) missing_data "Bots"
                "Bot_ID" w [bot_row 1 "Aida"]) as [Hd Hr];
      [reflexivity | reflexivity | compute_done |].
    split; [exact Hd | exact (Hr eq_refl)].
  - destruct (update_record_no_match no_coercion (PyInt 9) (VInt 9) ∅ "Bots"
                "Bot_ID" w [bot_row 1 "Aida"]) as [Hd Hr];
      [reflexivity | reflexivity | compute_done |].
    split; [exact Hd | exact (Hr eq_refl)].
Defined.

(** An update of bot 1 on a store with a second bot, the UPDATE failing or
    not. *)
Lemma update_record_frame_witness :
  let t := [bot_row 1 "Aida"; bot_row 2 "Bo"] in
  let w := idle (mkDb t [] [] ∅) [] in
  ∃ t',
    table_of "Bots"
      (disk (run (update_record no_coercion (PyInt 1) missing_data "Bots" "Bot_ID") w))
    = Some t' ∧
    length t' = length t ∧
    ∀ i r, t !! i = Some r →
      ∃ r', t' !! i = Some r' ∧
            (matches no_coercion "Bots" "Bot_ID" (VInt 1) r = false → r' = r) ∧
            (∀ c, missing_data !! c = None → r' !! c = r !! c).
Proof.
  intros t w.
  apply (update_record_frame no_coercion (PyInt 1) (VInt 1) missing_data "Bots" "Bot_ID"
           w t); reflexivity.
Defined.

(** Two keys, one of them twice, linked to no bot on the sample store. *)
Lemma link_bot_to_knowledgebase_None_witness :
  let w := idle aida_db [] in
  BotKnowledgeLink
    (disk (run (link_bot_to_knowledgebase no_coercion PyNone (PyInt <$> [5; 5; 6])) w))
  = BotKnowledgeLink (disk w) ++ map (λ k, link_row VNull (VInt k)) [5; 5; 6].
Proof.
  intros w. apply (link_bot_to_knowledgebase_None no_coercion [5; 5; 6] w). reflexivity.
Defined.

(** The sample store links one pair, once. *)
Lemma aida_db_unique_links : unique_links no_coercion aida_db.
Proof.
  intros b k. unfold links_between.
  etrans; [apply List.filter_length_le|]. cbn. lia.
Qed.

(** Links written on the sample store, a statement failing on the way. *)
Lemma link_functions_keep_pairs_unique_witness :
  let w := idle aida_db [None; None; Some IntegrityError] in
  (∀ b ks,
     unique_links no_coercion
       (disk (run (link_bot_to_knowledgebase no_coercion (PyInt b) (PyInt <$> ks)) w))) ∧
  (∀ b ks, NoDup ks →
     unique_links no_coercion (disk (run (update_bot_knowledge_links no_coercion b ks) w))).
Proof.
  intros w. apply (link_functions_keep_pairs_unique no_coercion w).
  exact aida_db_unique_links.
Defined.


(** The form submitted for a bot "Bo" with both knowledge entries
    selected, the INSERT of the bot being rejected. *)
Lemma add_bot_submit_links_after_failed_insert_witness :
  let w := idle aida_db [Some IntegrityError] in
  let m := add_bot_submit no_coercion {["Botperson_Name" := "Bo"]} [5; 6] in
  result m w = Ret () ∧
  Bots (disk (run m w)) = Bots (disk w) ∧
  BotKnowledgeLink (disk (run m w))
  = BotKnowledgeLink (disk w) ++ map (λ k', link_row VNull (VInt k')) [5; 6].
Proof.
  intros w.
  apply (add_bot_submit_links_after_failed_insert no_coercion
           {["Botperson_Name" := "Bo"]} 5 [6] IntegrityError w); reflexivity.
Defined.

(** The form submitted for "Aida" with entry 6 selected: the UPDATE is
    committed, the DELETE of the old links is rejected. *)
Lemma update_record_form_not_atomic_witness :
  let w := idle aida_db [None; None; Some OperationalError] in
  let m := update_record_form no_coercion "Aida" {["Role" := "Support"]} "Bots"
                              (Some 1) [6] in
  let d' := mkDb [<["Role" := VText "Support"]> (bot_row 1 "Aida")]
                 [kb_row 5 "doc5"; kb_row 6 "doc6"] [link_row (VInt 1) (VInt 5)] ∅ in
  result m w = Raise OperationalError ∧
  disk (run m w) = d' ∧
  BotKnowledgeLink (disk (run m w)) = BotKnowledgeLink (disk w) ∧
  shown (run m w) = shown w.
Proof.
  intros w m d'.
  apply (update_record_form_not_atomic no_coercion "Aida" {["Role" := "Support"]} "Bots"
           1 [6] OperationalError d' w);
    [reflexivity | discriminate | discriminate | compute_done].
Defined.

(** The store rejects the first statement of each of the three
    functions. *)
Lemma store_failure_is_not_reported_witness :
  let w := idle aida_db [Some OperationalError] in
  let unreported (m : M unit) :=
    result m w = Raise TypeError ∧ disk (run m w) = disk w ∧
    shown (run m w) = shown w ∧ conn (run m w) = None in
  unreported (add_record [{["Botperson_Name" := PyStr "Bo"]}] "Bots") ∧
  unreported (delete_record no_coercion (PyInt 1) "Bots" "Bot_ID") ∧
  unreported (update_record no_coercion (PyInt 1) {["Role" := PyStr "Support"]}
                            "Bots" "Bot_ID").
Proof.
  intros w unreported.
  destruct (store_failure_is_not_reported no_coercion OperationalError [] w eq_refl)
    as (H1 & H2 & H3).
  split; [apply H1 | split; [apply H2 | apply H3]].
Defined.

(** Two reads of [Bots] on the sample store. *)
Lemma load_data_twice_witness :
  let w := idle aida_db [] in
  load_data "Bots" (run (load_data "Bots") w)
  = (Ret [bot_row 1 "Aida"], run (load_data "Bots") w).
Proof.
  intros w. apply (load_data_twice "Bots" w [bot_row 1 "Aida"]). compute_done.
Defined.


(** The view of [Bots], whose key is not the first column. *)
Lemma default_columns_all_witness :
  let columns := ["Botperson_Name"; "Bot_ID"; "Role"] in
  default_columns "Bot_ID" columns ≡ₚ columns ∧
  NoDup (default_columns "Bot_ID" columns) ∧
  columns_to_show "Bot_ID" (default_columns "Bot_ID" columns)
  = (default_columns "Bot_ID" columns, false).
Proof.
  intros columns.
  apply (default_columns_all "Bot_ID" columns); compute_done.
Defined.
